(** * A shallow embedding of python_x509_pkcs11

    The PKCS#11 session wrapper ([pkcs11_handle.py]), the CSR builder of
    [root_ca.py] and, modelled from the spec, the OCSP helpers of [ocsp.py]
    (only its tests are present). *)

From Stdlib Require Import List String Ascii ZArith Bool Lia.
Import ListNotations.
Open Scope string_scope.
Open Scope list_scope.
Open Scope Z_scope.

Definition bytes := list Z.

(* ------------------------------------------------------------------ *)
(** ** Key types ([lib.KEYTYPES]) and the PKCS#11 attributes *)

Inductive KEYTYPES :=
| ED25519 | ED448 | SECP256r1 | SECP384r1 | SECP521r1 | RSA2048 | RSA4096.

(** [key_type.value] *)
Definition keytype_value (t : KEYTYPES) : string :=
  match t with
  | ED25519 => "ed25519" | ED448 => "ed448"
  | SECP256r1 => "secp256r1" | SECP384r1 => "secp384r1" | SECP521r1 => "secp521r1"
  | RSA2048 => "rsa_2048" | RSA4096 => "rsa_4096"
  end.

Definition KEYTYPES_eqb (a b : KEYTYPES) : bool :=
  match a, b with
  | ED25519, ED25519 | ED448, ED448 | SECP256r1, SECP256r1
  | SECP384r1, SECP384r1 | SECP521r1, SECP521r1
  | RSA2048, RSA2048 | RSA4096, RSA4096 => true
  | _, _ => false
  end.

(** [key_type in [...]] *)
Definition keytype_in (t : KEYTYPES) (l : list KEYTYPES) : bool :=
  existsb (KEYTYPES_eqb t) l.

(** [pkcs11.KeyType], the three families the code generates. *)
Inductive KeyType := KT_RSA | KT_EC | KT_EC_EDWARDS.

Definition KeyType_eqb (a b : KeyType) : bool :=
  match a, b with
  | KT_RSA, KT_RSA | KT_EC, KT_EC | KT_EC_EDWARDS, KT_EC_EDWARDS => true
  | _, _ => false
  end.

Inductive ObjectClass := PUBLIC_KEY | PRIVATE_KEY | CERTIFICATE.

Definition ObjectClass_eqb (a b : ObjectClass) : bool :=
  match a, b with
  | PUBLIC_KEY, PUBLIC_KEY | PRIVATE_KEY, PRIVATE_KEY
  | CERTIFICATE, CERTIFICATE => true
  | _, _ => false
  end.

(** [lib.KEY_TYPE_VALUES]. [lib.py] is not among the sources; the table is
    the PKCS#11 key type that [create_keypair] itself generates for each
    key type ([KeyType.RSA] for both RSA sizes, [KeyType.EC_EDWARDS] for
    both Edwards curves, [KeyType.EC] for the three NIST curves), which is
    what [_get_pub_key] must look up to find a key [create_keypair] made.
    [key_labels] relies on the same grouping: it lists every RSA key with
    the single query [KEY_TYPE_VALUES[KEYTYPES.RSA2048]] and tells 2048,
    4096 and 512 bits apart by [key_length], and it separates the curves
    by [EC_PARAMS], not by key type. *)
Definition KEY_TYPE_VALUES (t : KEYTYPES) : KeyType :=
  match t with
  | ED25519 | ED448 => KT_EC_EDWARDS
  | SECP256r1 | SECP384r1 | SECP521r1 => KT_EC
  | RSA2048 | RSA4096 => KT_RSA
  end.

(** Domain parameters stored with a generated key. *)
Inductive Params :=
| RsaModulusBits (bits : Z)
| EcNamedCurve (oid : string).

(** A PKCS#11 object on the token. [destroyable] is [CKA_DESTROYABLE]:
    [destroy()] of an object without it fails. [obj_value] is the public
    key material ([encode_*_public_key] reads it). *)
Record Obj := mkObj {
  obj_handle : nat;
  obj_class : ObjectClass;
  obj_key_type : KeyType;
  obj_label : string;
  obj_params : Params;
  obj_value : bytes;
  obj_destroyable : bool
}.

(** The token: its objects and the next free handle. *)
Record Device := mkDevice {
  objects : list Obj;
  next_handle : nat
}.

(** Exceptions raised on the paths modelled here. *)
Inductive Exc :=
| NoSuchKey
| MultipleObjectsReturned
| GeneralError
| ActionProhibited
| SignatureInvalid
| ValueError
| PKCS11UnknownErrorException
| DuplicateExtensionException.

Inductive Result (A : Type) := Ok (a : A) | Err (e : Exc).
Arguments Ok {A} a.
Arguments Err {A} e.

(** Stateful code over the token: state passing with an error result. *)
Definition M (A : Type) := Device -> Result A * Device.

Definition ret {A} (a : A) : M A := fun d => (Ok a, d).
Definition raise {A} (e : Exc) : M A := fun d => (Err e, d).
Definition bind {A B} (m : M A) (k : A -> M B) : M B :=
  fun d => match m d with
           | (Ok a, d') => k a d'
           | (Err e, d') => (Err e, d')
           end.

Notation "x <- m ;; k" := (bind m (fun x => k))
  (at level 61, m at next level, right associativity).

(** [try: m finally: f]: [f] runs on both paths; an exception of [f]
    replaces the one of [m], otherwise the result of [m] stands. *)
Definition try_finally {A} (m : M A) (f : M unit) : M A :=
  fun d => match m d with
           | (r, d1) => match f d1 with
                        | (Ok _, d2) => (r, d2)
                        | (Err e, d2) => (Err e, d2)
                        end
           end.

(** [session.get_key(key_type=..., object_class=..., label=...)]:
    exactly one match, or [NoSuchKey], or [MultipleObjectsReturned]. *)
Definition key_matches (kt : KeyType) (cls : ObjectClass) (label : string) (o : Obj) : bool :=
  KeyType_eqb (obj_key_type o) kt && ObjectClass_eqb (obj_class o) cls
  && String.eqb (obj_label o) label.

Definition get_key (kt : KeyType) (cls : ObjectClass) (label : string) : M Obj :=
  fun d => match filter (key_matches kt cls label) (objects d) with
           | [] => (Err NoSuchKey, d)
           | [o] => (Ok o, d)
           | _ => (Err MultipleObjectsReturned, d)
           end.

(** [obj.destroy()] *)
Definition destroy (o : Obj) : M unit :=
  fun d => if obj_destroyable o
           then (Ok tt, mkDevice (filter (fun x => negb (Nat.eqb (obj_handle x) (obj_handle o)))
                                         (objects d)) (next_handle d))
           else (Err ActionProhibited, d).

(** [self._get_pub_key(key_label, key_type)] *)
Definition _get_pub_key (key_label : string) (key_type : KEYTYPES) : M Obj :=
  get_key (KEY_TYPE_VALUES key_type) PUBLIC_KEY key_label.

(* ------------------------------------------------------------------ *)
(** ** Collaborators outside the repository

    Hash functions ([hashlib]), the token's key generation and signature
    primitives, and the [asn1crypto]/[pkcs11.util] encoders are consumed
    through this interface. *)

(** [asn1crypto.keys.PublicKeyInfo]: algorithm and the [public_key] bit
    string (its content bytes). *)
Record PublicKeyInfo := mkPKI {
  pki_algorithm : string;
  pki_public_key : bytes
}.

Inductive Mechanism := EDDSA | ECDSA | SHA256_RSA_PKCS | SHA512_RSA_PKCS.

Record Externals := mkExternals {
  sha1 : bytes -> bytes;
  sha256 : bytes -> bytes;
  sha384 : bytes -> bytes;
  sha512 : bytes -> bytes;
  (** public key material the token generates for the given domain
      parameters and object handle *)
  keygen : Params -> nat -> bytes;
  (** [key_priv.sign(data, mechanism=...)] and [key_pub.verify(...)] *)
  token_sign : Obj -> Mechanism -> bytes -> bytes;
  token_verify : Obj -> bytes -> bytes -> Mechanism -> bool;
  encode_rsa_public_key : Obj -> bytes;
  encode_eddsa_public_key : Obj -> bytes;
  encode_ec_public_key : Obj -> bytes;
  (** [PublicKeyInfo.load], [pki.dump()], [asn1_pem.armor] *)
  pki_load : bytes -> PublicKeyInfo;
  pki_dump : PublicKeyInfo -> bytes;
  pem_armor : string -> bytes -> bytes
}.

Section Handle.
Context (X : Externals).

(** [PublicKeyInfo.sha1] of asn1crypto: SHA-1 of the bytes of the
    [public_key] field, i.e. of the encoded public key. *)
Definition pki_sha1 (pki : PublicKeyInfo) : bytes :=
  sha1 X (pki_public_key pki).

(** The [PublicKeyInfo] built in [_public_key_data]. *)
Definition pki_of (key_pub : Obj) (key_type : KEYTYPES) : PublicKeyInfo :=
  if keytype_in key_type [RSA2048; RSA4096] then
    mkPKI "rsa" (encode_rsa_public_key X key_pub)
  else if keytype_in key_type [ED25519; ED448] then
    pki_load X (encode_eddsa_public_key X key_pub)
  else
    pki_load X (encode_ec_public_key X key_pub).

(** [_public_key_data]: the PEM of the SPKI and [pki.sha1]. *)
Definition _public_key_data (key_pub : Obj) (key_type : KEYTYPES) : bytes * bytes :=
  let pki := pki_of key_pub key_type in
  (pem_armor X "PUBLIC KEY" (pki_dump X pki), pki_sha1 pki).

(** [generate_keypair(..., store=True, label=key_label)]: a public and a
    private object with the next two handles. *)
Definition generate_keypair (kt : KeyType) (p : Params) (label : string) : M Obj :=
  fun d =>
    let n := next_handle d in
    let pub := mkObj n PUBLIC_KEY kt label p (keygen X p n) true in
    let priv := mkObj (S n) PRIVATE_KEY kt label p [] true in
    (Ok pub, mkDevice (objects d ++ [pub; priv]) (S (S n))).

(** [SignedDigestAlgorithmId(key_type.value).dotted] for the Edwards
    curves and the named-curve OID of [encode_named_curve_parameters]. *)
Definition curve_oid (t : KEYTYPES) : string :=
  match t with
  | ED25519 => "1.3.101.112"
  | ED448 => "1.3.101.113"
  | SECP256r1 => "1.2.840.10045.3.1.7"
  | SECP384r1 => "1.3.132.0.34"
  | SECP521r1 => "1.3.132.0.35"
  | RSA2048 | RSA4096 => ""
  end.

(** [int(key_type.value.split("_")[1])] *)
Definition rsa_bits (t : KEYTYPES) : Z :=
  match t with RSA4096 => 4096 | _ => 2048 end.

(** The [except NoSuchKey:] branch of [create_keypair]. *)
Definition generate_for (key_label : string) (key_type : KEYTYPES) : M Obj :=
  if keytype_in key_type [RSA2048; RSA4096] then
    generate_keypair KT_RSA (RsaModulusBits (rsa_bits key_type)) key_label
  else if keytype_in key_type [ED25519; ED448] then
    generate_keypair KT_EC_EDWARDS (EcNamedCurve (curve_oid key_type)) key_label
  else
    generate_keypair KT_EC (EcNamedCurve (curve_oid key_type)) key_label.

(** [create_keypair], local path, inside the lock after the health check:
    {v
        try:
            key_pub = self._get_pub_key(key_label, key_type)
            raise MultipleObjectsReturned
        except NoSuchKey:
            ... generate ...
        return self._public_key_data(key_pub, key_type)
    v} *)
Definition create_keypair (key_label : string) (key_type : KEYTYPES) : M (bytes * bytes) :=
  fun d =>
    match _get_pub_key key_label key_type d with
    | (Ok _, d1) => (Err MultipleObjectsReturned, d1)
    | (Err NoSuchKey, d1) =>
        bind (generate_for key_label key_type)
             (fun key_pub => ret (_public_key_data key_pub key_type)) d1
    | (Err e, d1) => (Err e, d1)
    end.

(** [public_key_data], local path. *)
Definition public_key_data (key_label : string) (key_type : KEYTYPES) : M (bytes * bytes) :=
  key_pub <- _get_pub_key key_label key_type ;;
  ret (_public_key_data key_pub key_type).

End Handle.

(* ------------------------------------------------------------------ *)
(** ** Signature format conversion ([crypto.convert_rs_ec_signature]) *)

(** Modelled from the spec: [crypto.py] is not among the sources. The spec
    (4.2) describes the conversion as a fixed-width decode of the token's
    [R || S] output, keyed by curve size (32/48/66 bytes per component for
    P-256/384/521), into the ASN.1 DER [Ecdsa-Sig-Value]
    [SEQUENCE { r INTEGER, s INTEGER }]. *)
Definition ec_component_width (curve : string) : nat :=
  if String.eqb curve "secp256r1" then 32%nat
  else if String.eqb curve "secp384r1" then 48%nat
  else 66%nat.

(** DER definite length octets. *)
Definition der_length (n : nat) : bytes :=
  if (n <? 128)%nat then [Z.of_nat n]
  else if (n <? 256)%nat then [129; Z.of_nat n]
  else [130; Z.of_nat (n / 256); Z.of_nat (n mod 256)].

(** Leading zero octets of an unsigned big-endian number, keeping one. *)
Fixpoint strip_zeros (b : bytes) : bytes :=
  match b with
  | z :: ((_ :: _) as t) => if Z.eqb z 0 then strip_zeros t else b
  | _ => b
  end.

(** DER [INTEGER] of a non-negative big-endian number: minimal octets,
    with a 0x00 in front when the top bit is set. *)
Definition der_integer (b : bytes) : bytes :=
  let c0 := strip_zeros b in
  let c := match c0 with
           | [] => [0]
           | h :: _ => if Z.leb 128 h then 0 :: c0 else c0
           end in
  2 :: der_length (List.length c) ++ c.

Definition der_sequence (body : bytes) : bytes :=
  48 :: der_length (List.length body) ++ body.

Definition convert_rs_ec_signature (signature : bytes) (curve : string) : bytes :=
  let w := ec_component_width curve in
  let r := firstn w signature in
  let s := firstn w (skipn w signature) in
  der_sequence (der_integer r ++ der_integer s).

(* ------------------------------------------------------------------ *)
(** ** Signing and deleting *)

Section Sign.
Context (X : Externals).

(** [_sign], inside the lock after the health check. The [isinstance]
    test on the token's answer always holds here: [token_sign] returns
    bytes. *)
Definition _sign (key_label : string) (data : bytes) (verify_signature : bool)
    (mechanism : Mechanism) (key_type : KEYTYPES) : M bytes :=
  key_priv <- get_key (KEY_TYPE_VALUES key_type) PRIVATE_KEY key_label ;;
  key_pub <- (if verify_signature
              then bind (_get_pub_key key_label key_type) (fun k => ret (Some k))
              else ret None) ;;
  let signature := token_sign X key_priv mechanism data in
  match key_pub with
  | Some k => if token_verify X k data signature mechanism
              then ret signature else raise SignatureInvalid
  | None => ret signature
  end.

(** [sign], local path. *)
Definition sign (key_label : string) (data : bytes) (verify_signature : bool)
    (key_type : KEYTYPES) : M bytes :=
  let '(mech, data') :=
    if keytype_in key_type [ED25519; ED448] then (EDDSA, data)
    else if keytype_in key_type [SECP256r1; SECP384r1; SECP521r1] then
      let hash_obj :=
        if KEYTYPES_eqb key_type SECP256r1 then sha256 X
        else if KEYTYPES_eqb key_type SECP384r1 then sha384 X
        else sha512 X in
      (ECDSA, hash_obj data)
    else if KEYTYPES_eqb key_type RSA2048 then (SHA256_RSA_PKCS, data)
    else (SHA512_RSA_PKCS, data) in
  signature <- _sign key_label data' verify_signature mech key_type ;;
  if keytype_in key_type [SECP256r1; SECP384r1; SECP521r1]
  then ret (convert_rs_ec_signature signature (keytype_value key_type))
  else ret signature.

End Sign.

(** [delete_keypair], local path, inside the lock after the health check:
    {v
        try:
            self.session.get_key(..., object_class=ObjectClass.PUBLIC_KEY, ...).destroy()
        finally:
            self.session.get_key(..., object_class=ObjectClass.PRIVATE_KEY, ...).destroy()
    v} *)
Definition delete_public (key_label : string) (key_type : KEYTYPES) : M unit :=
  o <- get_key (KEY_TYPE_VALUES key_type) PUBLIC_KEY key_label ;; destroy o.

Definition delete_private (key_label : string) (key_type : KEYTYPES) : M unit :=
  o <- get_key (KEY_TYPE_VALUES key_type) PRIVATE_KEY key_label ;; destroy o.

Definition delete_keypair (key_label : string) (key_type : KEYTYPES) : M unit :=
  try_finally (delete_public key_label key_type) (delete_private key_label key_type).

(* ------------------------------------------------------------------ *)
(** ** The health probe ([_open_session], [healthy_session]) *)

(** [TIMEOUT = 10  # Seconds], in whole time units. *)
Definition TIMEOUT : nat := 10.

(** How the [try] block of [_open_session] ends: the test [get_key] of the
    sentinel key finds it; it raises [NoSuchKey] and the bootstrap
    [generate_keypair] succeeds or raises [GeneralError]; or a
    [GeneralError] (or any other exception) ends the thread. *)
Inductive ProbeOutcome :=
| SentinelFound
| SentinelMissing (generated : bool)
| ProbeFailed.

(** One [_open_session] run in its own thread: how long it takes after
    the optional sleep, and how its probe ends. *)
Record Attempt := mkAttempt {
  att_duration : nat;
  att_outcome : ProbeOutcome
}.

(** [self._session_status] as left by [_open_session]: [9] first, [0]
    only when the sentinel is found or bootstrapped. *)
Definition open_session_status (o : ProbeOutcome) : Z :=
  match o with
  | SentinelFound => 0
  | SentinelMissing true => 0
  | SentinelMissing false => 9
  | ProbeFailed => 9
  end.

(** [if simulate_pkcs11_timeout: time.sleep(TIMEOUT + 1)] *)
Definition sleep_time (simulate : bool) : nat :=
  if simulate then (TIMEOUT + 1)%nat else 0%nat.

(** An [_open_session] thread started at time [st] ends at [attempt_end];
    it writes [self._session_status = 9] after the sleep and [0] at its
    end when the probe succeeded. *)
Definition attempt_end (simulate : bool) (st : nat) (a : Attempt) : nat :=
  (st + sleep_time simulate + att_duration a)%nat.

Definition attempt_writes (simulate : bool) (st : nat) (a : Attempt) : list (nat * Z) :=
  ((st + sleep_time simulate)%nat, 9)
  :: (if Z.eqb (open_session_status (att_outcome a)) 0
      then [(attempt_end simulate st a, 0)] else []).

(** The shared [self._session_status] at time [t]: the last write at or
    before [t], [z0] when there is none; writes at the same instant take
    effect in list order. *)
Definition status_at (t : nat) (z0 : Z) (ws : list (nat * Z)) : Z :=
  snd (fold_left
         (fun acc w =>
            if (fst w <=? t)%nat
               && match fst acc with None => true | Some b => (b <=? fst w)%nat end
            then (Some (fst w), snd w) else acc)
         ws (None, z0)).


(** [thread.start(); await sleep(0); thread.join(timeout=TIMEOUT)] and the
    test [thread.is_alive() or self._session_status != 0], for a thread
    started at [st]; [ws] are the other threads' writes. The join is taken
    to start when the thread is started. Returns the outcome of the test
    and the time the join returned. *)
Definition join_check (simulate : bool) (z0 : Z) (ws : list (nat * Z)) (st : nat)
    (a : Attempt) : bool * nat :=
  let e := attempt_end simulate st a in
  let r := Nat.min e (st + TIMEOUT) in
  ((st + TIMEOUT <? e)%nat
   || negb (Z.eqb (status_at r z0 (ws ++ attempt_writes simulate st a)) 0), r).


(** What one call of [healthy_session] did: its result, the [force]
    argument of each [_open_session] thread started, and the time at which
    it returned. *)
Record HealthRun := mkHealthRun {
  hs_result : Result unit;
  hs_attempts : list bool;
  hs_waited : nat
}.

(** [healthy_session], from the time of the call: [z0] is the status the
    call finds, [pending] the writes still to come from probe threads of
    earlier calls. A thread that outlives its join is not stopped: its
    writes count for the second test as well.
    {v
        if not self.support_recreate_session:
            return
        thread = Thread(target=self._open_session, args=(False, simulate_pkcs11_timeout))
        ...
        if thread.is_alive() or self._session_status != 0:
            thread2 = Thread(target=self._open_session, args=(True, simulate_pkcs11_timeout))
            ...
            if thread2.is_alive() or self._session_status != 0:
                raise PKCS11UnknownErrorException(...)
    v} *)
Definition healthy_session (support_recreate_session simulate : bool) (z0 : Z)
    (pending : list (nat * Z)) (a1 a2 : Attempt) : HealthRun :=
  if negb support_recreate_session then mkHealthRun (Ok tt) [] 0
  else
    let '(failed1, r1) := join_check simulate z0 pending 0 a1 in
    if failed1 then
      let '(failed2, r2) :=
        join_check simulate z0 (pending ++ attempt_writes simulate 0 a1) r1 a2 in
      mkHealthRun (if failed2 then Err PKCS11UnknownErrorException else Ok tt)
                  [false; true] r2
    else mkHealthRun (Ok tt) [false] r1.

(* ------------------------------------------------------------------ *)
(** ** Lock discipline of the device operations *)



















(* ------------------------------------------------------------------ *)
(** ** CSR builder ([root_ca.py]) *)

(** The value of an [asn1crypto.x509.Extension]. *)
Inductive ExtnValue :=
| BasicConstraints (ca : bool)
| KeyUsage (bits : list bool).

Record X509Extension := mkX509Extension {
  extn_id : string;
  critical : bool;
  extn_value : ExtnValue
}.

(** [CRIAttribute]: its type and its [SetOfExtensions] of [Extensions]. *)
Record CRIAttribute := mkCRIAttribute {
  attr_type : string;
  attr_values : list (list X509Extension)
}.

(** [CertificationRequestInfo]; fields not set yet are [None], an unset
    [attributes] field has length 0. The subject is the dict given to
    [Name().build]. *)
Record CertificationRequestInfo := mkCRI {
  cri_version : option Z;
  cri_subject : option (list (string * string));
  cri_subject_pk_info : option PublicKeyInfo;
  cri_attributes : list CRIAttribute
}.

Definition empty_cri : CertificationRequestInfo := mkCRI None None None [].

Definition _set_tbs_version (tbs : CertificationRequestInfo) : CertificationRequestInfo :=
  mkCRI (Some 0) (cri_subject tbs) (cri_subject_pk_info tbs) (cri_attributes tbs).

Definition _set_tbs_subject (tbs : CertificationRequestInfo)
    (subject_name : list (string * string)) : CertificationRequestInfo :=
  mkCRI (cri_version tbs) (Some subject_name) (cri_subject_pk_info tbs) (cri_attributes tbs).

Definition _set_tbs_subject_pk_info (tbs : CertificationRequestInfo)
    (pk_info : PublicKeyInfo) : CertificationRequestInfo :=
  mkCRI (cri_version tbs) (cri_subject tbs) (Some pk_info) (cri_attributes tbs).

(** The tail shared by both setters:
    {v
    if len(tbs["attributes"]) == 0:
        crias = asn1_csr.CRIAttributes(); crias.append(cria); tbs["attributes"] = crias
    else:
        tbs["attributes"].append(cria)
    v} *)
Definition add_attribute (tbs : CertificationRequestInfo) (cria : CRIAttribute)
    : CertificationRequestInfo :=
  let attrs := if (List.length (cri_attributes tbs) =? 0)%nat
               then [cria] else cri_attributes tbs ++ [cria] in
  mkCRI (cri_version tbs) (cri_subject tbs) (cri_subject_pk_info tbs) attrs.

(** PKCS#9 extensionRequest *)
Definition extension_request_oid : string := "1.2.840.113549.1.9.14".

Definition _set_tbs_basic_constraints (tbs : CertificationRequestInfo)
    : CertificationRequestInfo :=
  let ext := mkX509Extension "2.5.29.19" true (BasicConstraints true) in
  add_attribute tbs (mkCRIAttribute extension_request_oid [[ext]]).

(** [KeyUsage(('100001100',))]: the bit string given by the characters. *)
Fixpoint bits_of_string (s : string) : list bool :=
  match s with
  | EmptyString => []
  | String c rest => Ascii.eqb c "1"%char :: bits_of_string rest
  end.

Definition _set_tbs_key_usage (tbs : CertificationRequestInfo)
    : CertificationRequestInfo :=
  let ext := mkX509Extension "2.5.29.15" true (KeyUsage (bits_of_string "100001100")) in
  add_attribute tbs (mkCRIAttribute extension_request_oid [[ext]]).

Definition _create_tbs (subject_name : list (string * string)) (pk_info : PublicKeyInfo)
    : CertificationRequestInfo :=
  let tbs := empty_cri in
  let tbs := _set_tbs_version tbs in
  let tbs := _set_tbs_subject tbs subject_name in
  let tbs := _set_tbs_subject_pk_info tbs pk_info in
  let tbs := _set_tbs_basic_constraints tbs in
  let tbs := _set_tbs_key_usage tbs in
  tbs.

(** The named bits of [asn1crypto.x509.KeyUsage], by position. *)
Definition key_usage_names : list string :=
  ["digital_signature"; "non_repudiation"; "key_encipherment";
   "data_encipherment"; "key_agreement"; "key_cert_sign"; "crl_sign";
   "encipher_only"; "decipher_only"].

Definition key_usages_set (bits : list bool) : list string :=
  map snd (filter fst (combine bits key_usage_names)).

(* ------------------------------------------------------------------ *)
(** ** OCSP response builder and data extractor ([ocsp.py])

    [ocsp.py] is not among the sources, only its tests
    ([tests/test_ocsp.py]); the two functions below follow the spec. *)

Record ResponseDataExtension := mkRDExt {
  rd_extn_id : string;
  rd_extn_value : bytes
}.

Inductive CertStatus := Good | Revoked (reason : Z) | UnknownStatus.

Record SingleResponse := mkSingleResponse {
  sr_cert_serial : Z;
  sr_cert_status : CertStatus
}.

(** [ResponseData]: responder, responses and extensions. *)
Record ResponseData := mkResponseData {
  rd_responder_id : list (string * string);
  rd_responses : list SingleResponse;
  rd_extensions : list ResponseDataExtension
}.

Record BasicOCSPResponse := mkBasic {
  tbs_response_data : ResponseData;
  basic_signature : bytes
}.

Record OCSPResponse := mkOCSPResponse {
  response_status : Z;
  response_bytes : option BasicOCSPResponse
}.

Definition nonce_oid : string := "1.3.6.1.5.5.7.48.1.2".

Fixpoint has_duplicate (l : list string) : bool :=
  match l with
  | [] => false
  | x :: t => existsb (String.eqb x) t || has_duplicate t
  end.

Definition nonce_too_long (exts : list ResponseDataExtension) : bool :=
  existsb (fun e => String.eqb (rd_extn_id e) nonce_oid
                    && (32 <? List.length (rd_extn_value e))%nat) exts.

(** The [OCSPResponseStatus] enumeration. *)
Definition response_status_valid (s : Z) : bool :=
  existsb (Z.eqb s) [0; 1; 2; 3; 5; 6].

(** Modelled from the spec (4.3, OCSP response builder): [response]. An
    out-of-enumeration status fails with an invalid-argument error; a
    status other than "successful" (0) yields a response without body,
    whatever the other inputs; a successful one checks the extensions
    (duplicate identifiers, then the nonce size) before the single
    signing call on the TBS bytes. The second component lists the signing
    calls made, as (key label, signed bytes). *)
Definition response (sign_tbs : string -> bytes -> bytes)
    (encode_response_data : ResponseData -> bytes)
    (key_label : string) (responder_id : list (string * string))
    (single_responses : list SingleResponse) (status : Z)
    (extra_extensions : list ResponseDataExtension)
    : Result OCSPResponse * list (string * bytes) :=
  if negb (response_status_valid status) then (Err ValueError, [])
  else if negb (Z.eqb status 0) then (Ok (mkOCSPResponse status None), [])
  else if has_duplicate (map rd_extn_id extra_extensions)
  then (Err DuplicateExtensionException, [])
  else if nonce_too_long extra_extensions then (Err ValueError, [])
  else
    let data := mkResponseData responder_id single_responses extra_extensions in
    let tbs := encode_response_data data in
    (Ok (mkOCSPResponse 0 (Some (mkBasic data (sign_tbs key_label tbs)))),
     [(key_label, tbs)]).

(** The extensions of a parsed certificate that [certificate_ocsp_data]
    looks at: AKI (2.5.29.35) with its key identifier, AIA
    (1.3.6.1.5.5.7.1.1) with its (access method, location) pairs. *)
Inductive CertExtension :=
| AuthorityKeyIdentifier (key_identifier : bytes)
| AuthorityInformationAccess (descriptions : list (string * string))
| OtherExtension (oid : string).

Record Certificate := mkCertificate {
  cert_issuer_der : bytes;
  cert_serial : Z;
  cert_extensions : list CertExtension
}.

Definition ocsp_method_oid : string := "1.3.6.1.5.5.7.48.1".

Definition is_aki (e : CertExtension) : bool :=
  match e with AuthorityKeyIdentifier _ => true | _ => false end.

Definition ocsp_urls (e : CertExtension) : list string :=
  match e with
  | AuthorityInformationAccess ds =>
      map snd (filter (fun d => String.eqb (fst d) ocsp_method_oid) ds)
  | _ => []
  end.

Definition is_aia_ocsp (e : CertExtension) : bool :=
  match ocsp_urls e with [] => false | _ => true end.

(** Modelled from the spec (4.4): [certificate_ocsp_data] on the parsed
    certificate. Exactly one AKI and exactly one AIA extension with an
    OCSP access description, else [DuplicateExtensionException] (for
    missing and for duplicated alike); the issuer name hash is SHA-1 of the
    issuer's encoding, the issuer key hash is the AKI key identifier, the
    serial is read verbatim, the URL is the first OCSP location. *)
Definition certificate_ocsp_data (sha1 : bytes -> bytes) (c : Certificate)
    : Result (bytes * bytes * Z * string) :=
  match filter is_aki (cert_extensions c), filter is_aia_ocsp (cert_extensions c) with
  | [AuthorityKeyIdentifier kid], [aia] =>
      match ocsp_urls aia with
      | url :: _ => Ok (sha1 (cert_issuer_der c), kid, cert_serial c, url)
      | [] => Err DuplicateExtensionException
      end
  | _, _ => Err DuplicateExtensionException
  end.

(* ------------------------------------------------------------------ *)
(** ** Certificates on the token ([import_certificate],
    [export_certificate], [delete_certificate]) *)

(** A certificate object: its handle, [CKA_LABEL], [CKA_VALUE] (the DER
    of the certificate, as [decode_x509_certificate] stores it) and
    [CKA_DESTROYABLE]: [destroy()] of an object without it fails. The
    certificate operations touch no key object, so certificates are kept in
    a store of their own. *)
Record CertObj := mkCertObj {
  cert_handle : nat;
  certobj_label : string;
  cert_value : bytes;
  cert_destroyable : bool
}.

Record CertStore := mkCertStore {
  certs : list CertObj;
  cert_next_handle : nat
}.

(** Stateful code over the certificate objects. *)
Definition CM (A : Type) := CertStore -> Result A * CertStore.

(** [asn1_pem.detect], [asn1_pem.unarmor] (its third component), and
    whether [decode_x509_certificate] parses the bytes (it raises
    otherwise). The PEM text is taken as its UTF-8 bytes. *)
Record PemExternals := mkPemExternals {
  pem_detect : bytes -> bool;
  pem_unarmor : bytes -> bytes;
  x509_decodes : bytes -> bool
}.

(** [session.get_objects({CLASS: CERTIFICATE, LABEL: cert_label})] *)
Definition cert_matches (cert_label : string) (c : CertObj) : bool :=
  String.eqb (certobj_label c) cert_label.

(** [session.create_object(cert)] with [TOKEN] and [LABEL] set; the
    template sets no [DESTROYABLE], whose PKCS#11 default is true. *)
Definition create_cert_object (label : string) (der : bytes) : CM unit :=
  fun st =>
    let n := cert_next_handle st in
    (Ok tt, mkCertStore (certs st ++ [mkCertObj n label der true]) (S n)).

(** [import_certificate], local path:
    {v
    for cert in self.session.get_objects({...CERTIFICATE, LABEL: cert_label}):
        raise ValueError(...)
    data = cert_pem.encode("utf-8")
    if asn1_pem.detect(data):
        _, _, data = asn1_pem.unarmor(data)
    cert = decode_x509_certificate(data)
    ...
    self.session.create_object(cert)
    v} *)
Definition import_certificate (P : PemExternals) (cert_pem : bytes) (cert_label : string)
    : CM unit :=
  fun st =>
    match filter (cert_matches cert_label) (certs st) with
    | _ :: _ => (Err ValueError, st)
    | [] =>
        let data := if pem_detect P cert_pem then pem_unarmor P cert_pem else cert_pem in
        if x509_decodes P data then create_cert_object cert_label data st
        else (Err ValueError, st)
    end.

(** [export_certificate], local path: the first certificate found, as
    [asn1_pem.armor("CERTIFICATE", Certificate.load(der_bytes).dump())];
    [dump()] of a certificate loaded and not modified returns the bytes it
    was loaded from. *)
Definition export_certificate (X : Externals) (cert_label : string) : CM bytes :=
  fun st =>
    match filter (cert_matches cert_label) (certs st) with
    | c :: _ => (Ok (pem_armor X "CERTIFICATE" (cert_value c)), st)
    | [] => (Err ValueError, st)
    end.

(** [cert.destroy()] *)
Definition destroy_cert (c : CertObj) : CM unit :=
  fun st =>
    if cert_destroyable c
    then (Ok tt, mkCertStore (filter (fun x => negb (Nat.eqb (cert_handle x) (cert_handle c)))
                                     (certs st))
                             (cert_next_handle st))
    else (Err ActionProhibited, st).

(** [for cert in ...: cert.destroy()]: the loop stops at the first
    exception, which propagates. *)
Fixpoint destroy_certs (cs : list CertObj) : CM unit :=
  match cs with
  | [] => fun st => (Ok tt, st)
  | c :: cs' => fun st =>
      match destroy_cert c st with
      | (Ok _, st1) => destroy_certs cs' st1
      | (Err e, st1) => (Err e, st1)
      end
  end.

(** [delete_certificate], local path: [destroy()] on every certificate
    [get_objects] returns for the label. *)
Definition delete_certificate (cert_label : string) : CM unit :=
  fun st => destroy_certs (filter (cert_matches cert_label) (certs st)) st.

(* ------------------------------------------------------------------ *)
(** ** Importing a keypair ([import_keypair]) *)

(** The [pkcs11.util] and [crypto] decoders: the domain parameters and the
    key value of the attribute dict each one returns, or the exception it
    raises on bytes it cannot parse; the class and key type of that dict
    are fixed by the decoder ([decode_rsa_*] gives [KeyType.RSA],
    [decode_ec_*] [KeyType.EC], [decode_eddsa_*] [KeyType.EC_EDWARDS]). *)
Record KeyDecoders := mkKeyDecoders {
  decode_rsa_public_key : bytes -> Result (Params * bytes);
  decode_rsa_private_key : bytes -> Result (Params * bytes);
  decode_eddsa_public_key : bytes -> Result (Params * bytes);
  decode_eddsa_private_key : bytes -> Result (Params * bytes);
  decode_ec_public_key : bytes -> Result (Params * bytes);
  decode_ec_private_key : bytes -> Result (Params * bytes)
}.

(** The [if key_type in [...]: ... elif ...] chain of [import_keypair]:
    the key type of the family and its public and private key decoders. *)
Definition family_decoders (K : KeyDecoders) (key_type : KEYTYPES)
    : KeyType * (bytes -> Result (Params * bytes)) * (bytes -> Result (Params * bytes)) :=
  if keytype_in key_type [RSA2048; RSA4096] then
    (KT_RSA, decode_rsa_public_key K, decode_rsa_private_key K)
  else if keytype_in key_type [ED25519; ED448] then
    (KT_EC_EDWARDS, decode_eddsa_public_key K, decode_eddsa_private_key K)
  else
    (KT_EC, decode_ec_public_key K, decode_ec_private_key K).

(** [self.session.create_object(attrs)] for a key: a new object with the
    next handle; [CKA_DESTROYABLE] keeps its default, true. *)
Definition create_object (cls : ObjectClass) (kt : KeyType) (label : string)
    (pv : Params * bytes) : M unit :=
  fun d =>
    let n := next_handle d in
    (Ok tt, mkDevice (objects d ++ [mkObj n cls kt label (fst pv) (snd pv) true]) (S n)).

(** [import_keypair], local path:
    {v
    try:
        key_pub = self._get_pub_key(key_label, key_type)
        raise MultipleObjectsReturned
    except NoSuchKey:
        pass
    ... decode by family ...
    self.session.create_object(key_pub)
    self.session.create_object(key_priv)
    v} *)
Definition import_keypair (K : KeyDecoders) (public_key private_key : bytes)
    (key_label : string) (key_type : KEYTYPES) : M unit :=
  fun d =>
    match _get_pub_key key_label key_type d with
    | (Ok _, d1) => (Err MultipleObjectsReturned, d1)
    | (Err NoSuchKey, d1) =>
        let '(kt, decode_public, decode_private) := family_decoders K key_type in
        match decode_public public_key with
        | Err e => (Err e, d1)
        | Ok key_pub =>
            match decode_private private_key with
            | Err e => (Err e, d1)
            | Ok key_priv =>
                bind (create_object PUBLIC_KEY kt key_label key_pub)
                     (fun _ => create_object PRIVATE_KEY kt key_label key_priv) d1
            end
        end
    | (Err e, d1) => (Err e, d1)
    end.

(* ------------------------------------------------------------------ *)
(** ** Listing the keys ([key_labels]) *)

Definition Params_eqb (a b : Params) : bool :=
  match a, b with
  | RsaModulusBits x, RsaModulusBits y => Z.eqb x y
  | EcNamedCurve x, EcNamedCurve y => String.eqb x y
  | _, _ => false
  end.

(** [session.get_objects({CLASS: PUBLIC_KEY, KEY_TYPE: kt[, EC_PARAMS: p]})]
    in the token's order. *)
Definition get_objects_pub (kt : KeyType) (ec_params : option Params) (d : Device)
    : list Obj :=
  filter (fun o => ObjectClass_eqb (obj_class o) PUBLIC_KEY
                   && KeyType_eqb (obj_key_type o) kt
                   && match ec_params with
                      | Some p => Params_eqb (obj_params o) p
                      | None => true
                      end)
         (objects d).

(** [obj.key_length]: [CKA_MODULUS_BITS] of an RSA key. *)
Definition key_length (o : Obj) : Z :=
  match obj_params o with RsaModulusBits b => b | EcNamedCurve _ => 0 end.

(** A Python [Dict[str, str]]: assigning an existing key replaces its
    value in place, a new key goes to the end. *)
Definition dict := list (string * string).

Fixpoint dict_set (k v : string) (d : dict) : dict :=
  match d with
  | [] => [(k, v)]
  | (k', v') :: t => if String.eqb k' k then (k, v) :: t else (k', v') :: dict_set k v t
  end.

Fixpoint dict_get (k : string) (d : dict) : option string :=
  match d with
  | [] => None
  | (k', v) :: t => if String.eqb k' k then Some v else dict_get k t
  end.

Definition rsa_label_value (o : Obj) : string :=
  if Z.eqb (key_length o) 2048 then "rsa_2048"
  else if Z.eqb (key_length o) 4096 then "rsa_4096"
  else "rsa_512".

(** [for obj in objs: key_labels[obj.label] = f(obj)] *)
Definition set_all (f : Obj -> string) (objs : list Obj) (kl : dict) : dict :=
  fold_left (fun kl o => dict_set (obj_label o) (f o) kl) objs kl.

(** [key_labels], local path. [encode_named_curve_parameters(curve.value)]
    names the same curve OID as [curve_oid curve]. *)
Definition key_labels (d : Device) : dict :=
  let kl := set_all rsa_label_value (get_objects_pub (KEY_TYPE_VALUES RSA2048) None d) [] in
  let kl := set_all (fun _ => "ed25519")
              (get_objects_pub (KEY_TYPE_VALUES ED25519) (Some (EcNamedCurve "1.3.101.112")) d) kl in
  let kl := set_all (fun _ => "ed448")
              (get_objects_pub (KEY_TYPE_VALUES ED448) (Some (EcNamedCurve "1.3.101.113")) d) kl in
  fold_left (fun kl curve =>
               set_all (fun _ => keytype_value curve)
                 (get_objects_pub (KEY_TYPE_VALUES curve) (Some (EcNamedCurve (curve_oid curve))) d)
                 kl)
            [SECP256r1; SECP384r1; SECP521r1] kl.

(* ------------------------------------------------------------------ *)
(** ** Verifying ([verify], [crypto.convert_asn1_ec_signature]) *)

(** DER definite length: the length and the rest, or [None] where the
    parser raises. *)
Definition parse_der_length (b : bytes) : option (nat * bytes) :=
  match b with
  | [] => None
  | n :: t =>
      if Z.ltb n 128 then Some (Z.to_nat n, t)
      else if Z.eqb n 129 then
        match t with m :: t' => Some (Z.to_nat m, t') | [] => None end
      else if Z.eqb n 130 then
        match t with h :: l :: t' => Some ((Z.to_nat h * 256 + Z.to_nat l)%nat, t') | _ => None end
      else None
  end.

(** A DER [INTEGER]: its content octets and the rest. *)
Definition parse_der_integer (b : bytes) : option (bytes * bytes) :=
  match b with
  | h :: t =>
      if Z.eqb h 2 then
        match parse_der_length t with
        | Some (n, t') =>
            if (n <=? List.length t')%nat then Some (firstn n t', skipn n t') else None
        | None => None
        end
      else None
  | [] => None
  end.

(** [int.to_bytes(width, "big")] of a non-negative DER integer given by its
    content octets; [None] for a negative or too large one. *)
Definition fixed_width (w : nat) (c : bytes) : option bytes :=
  match c with
  | h :: _ =>
      if Z.leb 128 h then None
      else
        let s := strip_zeros c in
        if (w <? List.length s)%nat then None
        else Some (repeat 0 (w - List.length s) ++ s)
  | [] => None
  end.

(** Modelled from the spec: [crypto.py] is not among the sources. The spec
    (4.2, 5) describes [convert_asn1_ec_signature] as the inverse of
    [convert_rs_ec_signature]: the DER [Ecdsa-Sig-Value] back to [R || S]
    with the fixed width of the curve, and [verify] tolerates input that is
    not DER. [None] is the [IndexError]/[ValueError] that [verify]
    catches. *)
Definition convert_asn1_ec_signature (signature : bytes) (curve : string) : option bytes :=
  let w := ec_component_width curve in
  match signature with
  | h :: t =>
      if Z.eqb h 48 then
        match parse_der_length t with
        | Some (n, body) =>
            if Nat.eqb n (List.length body) then
              match parse_der_integer body with
              | Some (r, rest) =>
                  match parse_der_integer rest with
                  | Some (s, []) =>
                      match fixed_width w r, fixed_width w s with
                      | Some r', Some s' => Some (r' ++ s')
                      | _, _ => None
                      end
                  | _ => None
                  end
              | None => None
              end
            else None
        | None => None
        end
      else None
  | [] => None
  end.

Section Verify.
Context (X : Externals).

(** [verify], local path, inside the lock after the health check. *)
Definition verify (key_label : string) (data signature : bytes) (key_type : KEYTYPES)
    : M bool :=
  key_pub <- _get_pub_key key_label key_type ;;
  let '(mech, data', signature') :=
    if keytype_in key_type [ED25519; ED448] then (EDDSA, data, signature)
    else if keytype_in key_type [SECP256r1; SECP384r1; SECP521r1] then
      let hash_obj :=
        if KEYTYPES_eqb key_type SECP256r1 then sha256 X
        else if KEYTYPES_eqb key_type SECP384r1 then sha384 X
        else sha512 X in
      (ECDSA, hash_obj data,
       match convert_asn1_ec_signature signature (keytype_value key_type) with
       | Some s => s
       | None => signature
       end)
    else if KEYTYPES_eqb key_type RSA2048 then (SHA256_RSA_PKCS, data, signature)
    else (SHA512_RSA_PKCS, data, signature) in
  ret (if token_verify X key_pub data' signature' mech then true else false).

End Verify.

(* ------------------------------------------------------------------ *)
(** ** The older session wrapper ([src/python_x509_pkcs11/pkcs11_handle.py])

    [Session] of the first version: RSA keys only, a module-wide [LOCK]
    and [_healthy_session] before every call (neither is modelled here);
    the bodies below are what runs inside them. *)

Module Legacy.
Section Legacy.
Context (X : Externals).

(** [Session.create_keypair(key_size, key_label)]: no lookup before the
    generation; the [PublicKeyInfo] with algorithm ["rsa"] around the
    [RSAPublicKey] loaded from [encode_rsa_public_key(key_pub)], and the
    SHA-1 of that encoding. *)
Definition create_keypair (key_size : Z) (key_label : string) : M (PublicKeyInfo * bytes) :=
  key_pub <- generate_keypair X KT_RSA (RsaModulusBits key_size) key_label ;;
  ret (mkPKI "rsa" (encode_rsa_public_key X key_pub),
       sha1 X (encode_rsa_public_key X key_pub)).

(** [Session.key_identifier(key_label)] *)
Definition key_identifier (key_label : string) : M bytes :=
  key_pub <- get_key KT_RSA PUBLIC_KEY key_label ;;
  ret (sha1 X (encode_rsa_public_key X key_pub)).

(** [Session.sign(data, key_label)]: the public key is looked up first and
    not used. *)
Definition sign (data : bytes) (key_label : string) : M bytes :=
  _ <- get_key KT_RSA PUBLIC_KEY key_label ;;
  key_priv <- get_key KT_RSA PRIVATE_KEY key_label ;;
  ret (token_sign X key_priv SHA256_RSA_PKCS data).

End Legacy.
End Legacy.

(* ------------------------------------------------------------------ *)
(** ** A concrete instance of the collaborators, for evaluation *)

Definition ext0 : Externals :=
  mkExternals
    (fun _ => repeat 0 20) (fun b => b) (fun b => b) (fun b => b)
    (fun _ n => [Z.of_nat n])
    (fun _ _ b => b) (fun _ _ _ _ => true)
    obj_value obj_value obj_value
    (fun b => mkPKI "spki" b) pki_public_key (fun _ b => b).

Definition empty_device : Device := mkDevice [] 0.

Definition pem0 : PemExternals :=
  mkPemExternals (fun b => match b with 45 :: _ => true | _ => false end) (@tl Z) (fun _ => true).

(** Decoders that keep the bytes as the key value and refuse empty input. *)
Definition dec_with (p : Params) (b : bytes) : Result (Params * bytes) :=
  match b with [] => Err ValueError | _ => Ok (p, b) end.

Definition dec0 : KeyDecoders :=
  mkKeyDecoders
    (dec_with (RsaModulusBits 2048)) (dec_with (RsaModulusBits 2048))
    (dec_with (EcNamedCurve "1.3.101.112")) (dec_with (EcNamedCurve "1.3.101.112"))
    (dec_with (EcNamedCurve "1.2.840.10045.3.1.7")) (dec_with (EcNamedCurve "1.2.840.10045.3.1.7")).

Definition empty_store : CertStore := mkCertStore [] 0.

(** A token whose ECDSA output has the P-256 width. *)
Definition ext_ec : Externals :=
  mkExternals
    (fun _ => repeat 0 20) (fun b => b) (fun b => b) (fun b => b)
    (fun _ n => [Z.of_nat n])
    (fun _ _ b => firstn 64 (b ++ repeat 0 64)) (fun _ _ _ _ => true)
    obj_value obj_value obj_value
    (fun b => mkPKI "spki" b) pki_public_key (fun _ b => b).

(* ================================================================== *)
(** * Properties *)

Example der_integer_pads_high_bit : der_integer [0; 0; 128; 1] = [2; 3; 0; 128; 1].
Proof. reflexivity. Qed.

Example der_integer_zero : der_integer [0; 0; 0] = [2; 1; 0].
Proof. reflexivity. Qed.

Example create_then_public_key_data :
  let d1 := snd (create_keypair ext0 "ca" ED25519 empty_device) in
  fst (public_key_data ext0 "ca" ED25519 d1) = fst (create_keypair ext0 "ca" ED25519 empty_device).
Proof. reflexivity. Qed.

Lemma KeyType_eqb_refl (k : KeyType) : KeyType_eqb k k = true.
Proof. destruct k; reflexivity. Qed.

Lemma get_key_state kt cls l d : snd (get_key kt cls l d) = d.
Proof. unfold get_key. destruct (filter _ _) as [|? [|? ?]]; reflexivity. Qed.

(** What a successful [create_keypair] did: there was no public key under
    the label and family, and it appended a public and a private key of
    that family. *)
Lemma create_keypair_ok_inv X L T d r d1 :
  create_keypair X L T d = (Ok r, d1) ->
  filter (key_matches (KEY_TYPE_VALUES T) PUBLIC_KEY L) (objects d) = [] /\
  exists pub priv,
    objects d1 = objects d ++ [pub; priv] /\
    obj_key_type pub = KEY_TYPE_VALUES T /\ obj_class pub = PUBLIC_KEY /\
    obj_label pub = L /\
    obj_key_type priv = KEY_TYPE_VALUES T /\ obj_class priv = PRIVATE_KEY /\
    obj_label priv = L /\
    r = _public_key_data X pub T.
Proof.
  unfold create_keypair, _get_pub_key, get_key.
  destruct (filter _ (objects d)) as [|o [|o' l]] eqn:E; try discriminate.
  intros H. split; [reflexivity|].
  destruct T; simpl in H; inversion H; subst; clear H;
    eexists; eexists; repeat split; reflexivity.
Qed.

(** With no public key under the label and family, [create_keypair]
    succeeds. *)
Lemma create_keypair_fresh_ok X L T d :
  filter (key_matches (KEY_TYPE_VALUES T) PUBLIC_KEY L) (objects d) = [] ->
  exists r d1, create_keypair X L T d = (Ok r, d1).
Proof.
  intros E. unfold create_keypair, _get_pub_key, get_key. rewrite E.
  destruct T; do 2 eexists; reflexivity.
Qed.

Lemma filter_nil_of_class kt L o os :
  obj_class o = PRIVATE_KEY ->
  filter (key_matches kt PUBLIC_KEY L) (o :: os) = filter (key_matches kt PUBLIC_KEY L) os.
Proof.
  intros Hc. simpl. unfold key_matches at 1. rewrite Hc. simpl.
  rewrite andb_false_r. reflexivity.
Qed.

(** Claim C1 (amended). A public key is looked up by label and PKCS#11 key
    family ([KEY_TYPE_VALUES]): if one already exists under the label and
    the family of [T], [create_keypair] raises [MultipleObjectsReturned]
    and leaves the token unchanged. After creating [L] under [T], creating
    [L] under a key type of another family succeeds (when that family had
    no key [L]), and creating it under a key type of the same family
    fails with [MultipleObjectsReturned]. *)
Theorem create_keypair_label_per_family :
  (forall X L T d o,
     In o (objects d) ->
     key_matches (KEY_TYPE_VALUES T) PUBLIC_KEY L o = true ->
     create_keypair X L T d = (Err MultipleObjectsReturned, d)) /\
  (forall X L T T' d r d1,
     create_keypair X L T d = (Ok r, d1) ->
     KEY_TYPE_VALUES T' <> KEY_TYPE_VALUES T ->
     filter (key_matches (KEY_TYPE_VALUES T') PUBLIC_KEY L) (objects d) = [] ->
     exists r' d2, create_keypair X L T' d1 = (Ok r', d2)) /\
  (forall X L T T' d r d1,
     create_keypair X L T d = (Ok r, d1) ->
     KEY_TYPE_VALUES T' = KEY_TYPE_VALUES T ->
     create_keypair X L T' d1 = (Err MultipleObjectsReturned, d1)).
Proof.
  split; [|split].
  - intros X L T d o Hin Hm.
    unfold create_keypair, _get_pub_key, get_key.
    assert (Hf : In o (filter (key_matches (KEY_TYPE_VALUES T) PUBLIC_KEY L) (objects d)))
      by (apply filter_In; auto).
    destruct (filter _ (objects d)) as [|o1 [|o2 l]]; [contradiction|reflexivity|reflexivity].
  - intros X L T T' d r d1 Hc Hne Hnone.
    destruct (create_keypair_ok_inv X L T d r d1 Hc)
      as (_ & pub & priv & Ho & Hkt & Hcl & Hl & _ & Hpcl & _ & _).
    apply create_keypair_fresh_ok.
    rewrite Ho, filter_app, Hnone. simpl.
    unfold key_matches at 1. rewrite Hkt.
    destruct (KeyType_eqb (KEY_TYPE_VALUES T) (KEY_TYPE_VALUES T')) eqn:E.
    + exfalso. apply Hne. destruct (KEY_TYPE_VALUES T), (KEY_TYPE_VALUES T');
        try discriminate; reflexivity.
    + simpl. apply filter_nil_of_class with (os := []); assumption.
  - intros X L T T' d r d1 Hc Heq.
    destruct (create_keypair_ok_inv X L T d r d1 Hc)
      as (Hnone & pub & priv & Ho & Hkt & Hcl & Hl & _ & Hpcl & _ & _).
    unfold create_keypair, _get_pub_key, get_key.
    rewrite Ho, filter_app, Heq, Hnone. simpl.
    unfold key_matches. rewrite Hkt, Hcl, Hl, Hpcl, KeyType_eqb_refl, String.eqb_refl.
    simpl. rewrite andb_false_r. reflexivity.
Qed.

Lemma create_keypair_label_per_family_witness :
  exists r d1,
    create_keypair ext0 "k" ED25519 empty_device = (Ok r, d1) /\
    create_keypair ext0 "k" ED25519 d1 = (Err MultipleObjectsReturned, d1) /\
    (exists r' d2, create_keypair ext0 "k" RSA2048 d1 = (Ok r', d2)) /\
    create_keypair ext0 "k" ED448 d1 = (Err MultipleObjectsReturned, d1).
Proof.
  destruct create_keypair_label_per_family as (H1 & H2 & H3).
  do 2 eexists. split; [reflexivity|]. split; [|split].
  - apply H1 with (o := mkObj 0 PUBLIC_KEY KT_EC_EDWARDS "k"
                            (EcNamedCurve "1.3.101.112") [0] true);
      [simpl; auto | reflexivity].
  - eapply (H2 ext0 "k" ED25519 RSA2048 empty_device);
      [reflexivity | discriminate | reflexivity].
  - eapply (H3 ext0 "k" ED25519 ED448 empty_device); reflexivity.
Defined.

(** Claim C1 as stated fails: [rsa_2048] and [rsa_4096] are different
    key types, yet after [create_keypair("k", rsa_2048)] the call
    [create_keypair("k", rsa_4096)] raises [MultipleObjectsReturned]. *)
Lemma create_keypair_same_family_cex :
  RSA2048 <> RSA4096 /\
  exists r d1,
    create_keypair ext0 "k" RSA2048 empty_device = (Ok r, d1) /\
    create_keypair ext0 "k" RSA4096 d1 = (Err MultipleObjectsReturned, d1).
Proof. split; [discriminate|]. do 2 eexists. split; reflexivity. Qed.

(** Claim C4. For every key type: the key identifier [create_keypair]
    returns is SHA-1 of the encoded public key (the [public_key] bytes of
    the SubjectPublicKeyInfo whose PEM it returns), and [public_key_data]
    on the same label and key type afterwards returns the same PEM and
    the same identifier. *)
Theorem key_identifier_is_sha1_of_public_key :
  forall X L T d pem ki d1,
    create_keypair X L T d = (Ok (pem, ki), d1) ->
    public_key_data X L T d1 = (Ok (pem, ki), d1) /\
    exists k, In k (objects d1) /\ obj_class k = PUBLIC_KEY /\ obj_label k = L /\
              pem = pem_armor X "PUBLIC KEY" (pki_dump X (pki_of X k T)) /\
              ki = sha1 X (pki_public_key (pki_of X k T)).
Proof.
  intros X L T d pem ki d1 Hc.
  destruct (create_keypair_ok_inv X L T d (pem, ki) d1 Hc)
    as (Hnone & pub & priv & Ho & Hkt & Hcl & Hl & _ & Hpcl & _ & Hr).
  unfold _public_key_data in Hr. inversion Hr; subst pem ki.
  split.
  - unfold public_key_data, bind, _get_pub_key, get_key.
    rewrite Ho, filter_app, Hnone. simpl.
    unfold key_matches. rewrite Hkt, Hcl, Hl, Hpcl, KeyType_eqb_refl, String.eqb_refl.
    simpl. rewrite andb_false_r. reflexivity.
  - exists pub. rewrite Ho. repeat split; auto.
    apply in_or_app. simpl. auto.
Qed.

Lemma key_identifier_is_sha1_of_public_key_witness :
  exists pem ki d1,
    create_keypair ext0 "k" SECP384r1 empty_device = (Ok (pem, ki), d1) /\
    public_key_data ext0 "k" SECP384r1 d1 = (Ok (pem, ki), d1).
Proof.
  do 3 eexists. split; [reflexivity|].
  eapply (key_identifier_is_sha1_of_public_key ext0 "k" SECP384r1 empty_device).
  reflexivity.
Defined.

Example convert_rs_p256_shape :
  convert_rs_ec_signature (repeat 1 32 ++ [200] ++ repeat 7 31) "secp256r1"
  = [48; 69; 2; 32] ++ repeat 1 32 ++ [2; 33; 0; 200] ++ repeat 7 31.
Proof. reflexivity. Qed.

(** Claim C5. [sign] picks mechanism and preprocessing by key type:
    EdDSA on the raw data for Ed25519/Ed448; for P-256/P-384/P-521 ECDSA
    on the SHA-256/SHA-384/SHA-512 digest, whose [R || S] result is
    converted to the DER [Ecdsa-Sig-Value] by [convert_rs_ec_signature];
    RSA-PKCS1 with SHA-256 for RSA-2048 and with SHA-512 for RSA-4096. *)
Theorem sign_mechanism_by_key_type :
  forall X L data T d priv,
    get_key (KEY_TYPE_VALUES T) PRIVATE_KEY L d = (Ok priv, d) ->
    sign X L data false T d =
    (Ok (match T with
         | ED25519 | ED448 => token_sign X priv EDDSA data
         | SECP256r1 =>
             convert_rs_ec_signature (token_sign X priv ECDSA (sha256 X data)) "secp256r1"
         | SECP384r1 =>
             convert_rs_ec_signature (token_sign X priv ECDSA (sha384 X data)) "secp384r1"
         | SECP521r1 =>
             convert_rs_ec_signature (token_sign X priv ECDSA (sha512 X data)) "secp521r1"
         | RSA2048 => token_sign X priv SHA256_RSA_PKCS data
         | RSA4096 => token_sign X priv SHA512_RSA_PKCS data
         end), d).
Proof.
  intros X L data T d priv H.
  destruct T;
    cbv [sign bind _sign keytype_in existsb KEYTYPES_eqb orb ret keytype_value];
    rewrite H; reflexivity.
Qed.

Lemma sign_mechanism_by_key_type_witness :
  let d := mkDevice [mkObj 0 PRIVATE_KEY KT_EC "k" (EcNamedCurve "1.3.132.0.34") [] true] 1 in
  sign ext0 "k" [1; 2; 3] false SECP384r1 d =
  (Ok (convert_rs_ec_signature
         (token_sign ext0 (mkObj 0 PRIVATE_KEY KT_EC "k" (EcNamedCurve "1.3.132.0.34") [] true)
                     ECDSA (sha384 ext0 [1; 2; 3])) "secp384r1"), d).
Proof.
  intros d. apply (sign_mechanism_by_key_type ext0 "k" [1; 2; 3] SECP384r1 d).
  reflexivity.
Defined.

(** A failing [try] body of [delete_keypair] leaves the token as it was. *)
Lemma delete_public_err_state L T d e :
  fst (delete_public L T d) = Err e -> snd (delete_public L T d) = d.
Proof.
  unfold delete_public, bind, get_key, destroy.
  destruct (filter _ (objects d)) as [|o [|o' l]]; simpl; try reflexivity.
  destruct (obj_destroyable o); simpl; [discriminate | reflexivity].
Qed.

(** Claim C10. [delete_keypair] runs the private-key deletion in a
    [finally]: when looking up or destroying the public key fails, the
    private key is still looked up; if there is one (destroyable), it is
    removed from the token and the public key's error is raised, so the
    token is changed although the call fails; if the private-key lookup
    fails too, its error is the one raised. *)
Theorem delete_keypair_not_atomic :
  forall L T d e,
    fst (delete_public L T d) = Err e ->
    (forall priv,
       filter (key_matches (KEY_TYPE_VALUES T) PRIVATE_KEY L) (objects d) = [priv] ->
       obj_destroyable priv = true ->
       delete_keypair L T d =
         (Err e, mkDevice (filter (fun x => negb (Nat.eqb (obj_handle x) (obj_handle priv)))
                                  (objects d)) (next_handle d)) /\
       In priv (objects d) /\
       ~ In priv (objects (snd (delete_keypair L T d)))) /\
    (forall e2,
       fst (delete_private L T d) = Err e2 ->
       delete_keypair L T d = (Err e2, snd (delete_private L T d))).
Proof.
  intros L T d e He.
  pose proof (delete_public_err_state L T d e He) as Hs.
  unfold delete_keypair, try_finally.
  destruct (delete_public L T d) as [r d1] eqn:Ep. simpl in He, Hs. subst r d1.
  split.
  - intros priv Hf Hd.
    assert (Hin : In priv (objects d)).
    { assert (In priv (filter (key_matches (KEY_TYPE_VALUES T) PRIVATE_KEY L) (objects d)))
        by (rewrite Hf; left; reflexivity).
      apply filter_In in H. tauto. }
    assert (Hdp : delete_private L T d =
                  (Ok tt, mkDevice (filter (fun x => negb (Nat.eqb (obj_handle x) (obj_handle priv)))
                                           (objects d)) (next_handle d))).
    { unfold delete_private, bind, get_key. rewrite Hf. unfold destroy. rewrite Hd. reflexivity. }
    rewrite Hdp. split; [reflexivity|]. split; [exact Hin|].
    simpl. intros Hin'. apply filter_In in Hin' as [_ Hneq].
    rewrite Nat.eqb_refl in Hneq. discriminate.
  - intros e2 He2. destruct (delete_private L T d) as [r2 d2]. simpl in He2. subst r2.
    reflexivity.
Qed.

Lemma delete_keypair_not_atomic_witness :
  let priv := mkObj 1 PRIVATE_KEY KT_RSA "k" (RsaModulusBits 2048) [] true in
  delete_keypair "k" RSA2048 (mkDevice [priv] 2) = (Err NoSuchKey, mkDevice [] 2).
Proof.
  intros priv.
  destruct (delete_keypair_not_atomic "k" RSA2048 (mkDevice [priv] 2) NoSuchKey eq_refl)
    as [H _].
  destruct (H priv eq_refl eq_refl) as [Hd _]. exact Hd.
Defined.

(** ** The health probe *)












(** ** The lock *)











(** ** The CSR builder *)

(** Claim C9. [_create_tbs] yields version 0, the subject and the public
    key info given, and two PKCS#9 extension-request attributes in this
    order: Basic Constraints (CA true, critical) and Key Usage (critical,
    exactly digitalSignature, keyCertSign and cRLSign set). Each setter
    appends its attribute to those already present. *)
Theorem create_tbs_attributes :
  (forall subject_name pk_info,
     let tbs := _create_tbs subject_name pk_info in
     cri_version tbs = Some 0 /\
     cri_subject tbs = Some subject_name /\
     cri_subject_pk_info tbs = Some pk_info /\
     cri_attributes tbs =
       [mkCRIAttribute extension_request_oid
          [[mkX509Extension "2.5.29.19" true (BasicConstraints true)]];
        mkCRIAttribute extension_request_oid
          [[mkX509Extension "2.5.29.15" true (KeyUsage (bits_of_string "100001100"))]]] /\
     key_usages_set (bits_of_string "100001100")
       = ["digital_signature"; "key_cert_sign"; "crl_sign"]) /\
  (forall tbs,
     cri_attributes (_set_tbs_basic_constraints tbs) =
       cri_attributes tbs ++
       [mkCRIAttribute extension_request_oid
          [[mkX509Extension "2.5.29.19" true (BasicConstraints true)]]]) /\
  (forall tbs,
     cri_attributes (_set_tbs_key_usage tbs) =
       cri_attributes tbs ++
       [mkCRIAttribute extension_request_oid
          [[mkX509Extension "2.5.29.15" true (KeyUsage (bits_of_string "100001100"))]]]).
Proof.
  split; [|split].
  - intros subject_name pk_info. repeat split.
  - intros tbs. unfold _set_tbs_basic_constraints, add_attribute. simpl.
    destruct (cri_attributes tbs); reflexivity.
  - intros tbs. unfold _set_tbs_key_usage, add_attribute. simpl.
    destruct (cri_attributes tbs); reflexivity.
Qed.

(** ** OCSP *)

(** Claim C6. A response status outside [{0,1,2,3,5,6}] (4, 99, ...)
    makes [response] fail with an invalid-argument error; a status in
    [{1,2,3,5,6}] gives a response with that status and no body, whatever
    the single responses and extensions, and signs nothing. *)
Theorem response_status_codes :
  forall sign_tbs enc key_label responder single_responses status exts,
    (~ In status [0; 1; 2; 3; 5; 6] ->
       response sign_tbs enc key_label responder single_responses status exts
       = (Err ValueError, [])) /\
    (In status [1; 2; 3; 5; 6] ->
       response sign_tbs enc key_label responder single_responses status exts
       = (Ok (mkOCSPResponse status None), [])).
Proof.
  intros sign_tbs enc key_label responder single_responses status exts.
  unfold response, response_status_valid. split; intros H.
  - destruct (existsb (Z.eqb status) [0; 1; 2; 3; 5; 6]) eqn:E; [|reflexivity].
    exfalso. apply H. apply existsb_exists in E as (x & Hx & Hxe).
    apply Z.eqb_eq in Hxe. subst. exact Hx.
  - simpl in H.
    destruct H as [<-|[<-|[<-|[<-|[<-|[]]]]]]; reflexivity.
Qed.

Lemma response_status_codes_witness :
  response (fun _ b => b) (fun _ => []) "k" [] [mkSingleResponse 1 Good] 4 [] = (Err ValueError, []) /\
  response (fun _ b => b) (fun _ => []) "k" [] [mkSingleResponse 1 Good] 99 [] = (Err ValueError, []) /\
  response (fun _ b => b) (fun _ => []) "k" [] [mkSingleResponse 1 Good] 1 []
    = (Ok (mkOCSPResponse 1 None), []).
Proof.
  split; [|split].
  - apply (response_status_codes (fun _ b => b) (fun _ => []) "k" [] [mkSingleResponse 1 Good] 4 []).
    simpl. intros H. repeat destruct H as [H|H]; discriminate || contradiction.
  - apply (response_status_codes (fun _ b => b) (fun _ => []) "k" [] [mkSingleResponse 1 Good] 99 []).
    simpl. intros H. repeat destruct H as [H|H]; discriminate || contradiction.
  - apply (response_status_codes (fun _ b => b) (fun _ => []) "k" [] [mkSingleResponse 1 Good] 1 []).
    simpl. auto.
Defined.

(** Claim C7 (amended). For a successful response (status 0): duplicate
    extension identifiers fail with [DuplicateExtensionException] and an
    over-long nonce (more than 32 bytes) fails, both before any signing
    call; with distinct identifiers and every nonce of at most 32 bytes
    the call succeeds after exactly one signing call. For a non-successful
    status the extensions are not examined. *)
Theorem response_extension_checks :
  forall sign_tbs enc key_label responder single_responses exts,
    (has_duplicate (map rd_extn_id exts) = true ->
       response sign_tbs enc key_label responder single_responses 0 exts
       = (Err DuplicateExtensionException, [])) /\
    (nonce_too_long exts = true ->
       exists e, response sign_tbs enc key_label responder single_responses 0 exts
                 = (Err e, [])) /\
    (has_duplicate (map rd_extn_id exts) = false -> nonce_too_long exts = false ->
       exists r tbs,
         response sign_tbs enc key_label responder single_responses 0 exts
         = (Ok r, [(key_label, tbs)]) /\ response_bytes r <> None) /\
    (forall status, In status [1; 2; 3; 5; 6] ->
       response sign_tbs enc key_label responder single_responses status exts
       = (Ok (mkOCSPResponse status None), [])).
Proof.
  intros sign_tbs enc key_label responder single_responses exts.
  unfold response. simpl. split; [|split; [|split]].
  - intros H. rewrite H. reflexivity.
  - intros H. destruct (has_duplicate _); [eauto|]. rewrite H. eauto.
  - intros H1 H2. rewrite H1, H2. do 2 eexists. split; [reflexivity|]. discriminate.
  - intros status Hs. simpl in Hs.
    destruct Hs as [<-|[<-|[<-|[<-|[<-|[]]]]]]; reflexivity.
Qed.

Lemma response_extension_checks_witness :
  let nonce32 := mkRDExt nonce_oid (repeat 7 32) in
  let nonce33 := mkRDExt nonce_oid (repeat 7 33) in
  response (fun _ b => b) (fun _ => []) "k" [] [] 0 [nonce32; nonce32]
    = (Err DuplicateExtensionException, []) /\
  (exists e, response (fun _ b => b) (fun _ => []) "k" [] [] 0 [nonce33] = (Err e, [])) /\
  (exists r tbs, response (fun _ b => b) (fun _ => []) "k" [] [] 0 [nonce32]
                 = (Ok r, [("k", tbs)]) /\ response_bytes r <> None).
Proof.
  intros nonce32 nonce33. split; [|split].
  - apply (response_extension_checks (fun _ b => b) (fun _ => []) "k" [] [] [nonce32; nonce32]).
    reflexivity.
  - apply (response_extension_checks (fun _ b => b) (fun _ => []) "k" [] [] [nonce33]).
    reflexivity.
  - apply (response_extension_checks (fun _ b => b) (fun _ => []) "k" [] [] [nonce32]);
      reflexivity.
Defined.

(** Claim C7 as stated fails: with status 1 a 33-byte nonce does not make
    the call fail; the response is built without a body. *)
Lemma response_nonce_ignored_cex :
  response (fun _ b => b) (fun _ => []) "k" [] [] 1 [mkRDExt nonce_oid (repeat 7 33)]
  = (Ok (mkOCSPResponse 1 None), []).
Proof. reflexivity. Qed.

(** Claim C8 (amended). [certificate_ocsp_data] fails with
    [DuplicateExtensionException] unless the certificate has exactly one
    AKI extension and exactly one AIA extension with an OCSP access
    description. With exactly one of each it returns SHA-1 of the issuer
    name (20 bytes), the AKI key identifier verbatim as issuer key hash,
    the serial number and the OCSP URL. *)
Theorem certificate_ocsp_data_extensions :
  forall (sha1 : bytes -> bytes) c,
    (forall b, List.length (sha1 b) = 20%nat) ->
    ((List.length (filter is_aki (cert_extensions c)) <> 1%nat \/
      List.length (filter is_aia_ocsp (cert_extensions c)) <> 1%nat) ->
       certificate_ocsp_data sha1 c = Err DuplicateExtensionException) /\
    (forall kid aia,
       filter is_aki (cert_extensions c) = [AuthorityKeyIdentifier kid] ->
       filter is_aia_ocsp (cert_extensions c) = [aia] ->
       exists url,
         certificate_ocsp_data sha1 c = Ok (sha1 (cert_issuer_der c), kid, cert_serial c, url) /\
         List.length (sha1 (cert_issuer_der c)) = 20%nat /\
         In url (ocsp_urls aia)).
Proof.
  intros sha1 c Hlen. split.
  - intros H. unfold certificate_ocsp_data.
    destruct (filter is_aki _) as [|[kid| |] [|x l]] eqn:Ea;
      destruct (filter is_aia_ocsp _) as [|aia [|y l']] eqn:Eb;
      try reflexivity; simpl in H; try (destruct H as [H|H]; exfalso; apply H; reflexivity).
  - intros kid aia Ha Hb. unfold certificate_ocsp_data. rewrite Ha, Hb.
    assert (Hi : In aia (filter is_aia_ocsp (cert_extensions c))) by (rewrite Hb; left; reflexivity).
    apply filter_In in Hi as [_ Hi]. unfold is_aia_ocsp in Hi.
    destruct (ocsp_urls aia) as [|url urls]; [discriminate|].
    exists url. split; [reflexivity|]. split; [apply Hlen | left; reflexivity].
Qed.

(** The certificate of [test_certificate_ocsp_data] without an OCSP
    access description, and one with both extensions. *)
Lemma certificate_ocsp_data_extensions_witness :
  let sha1_20 := fun _ : bytes => repeat 0 20 in
  let no_ocsp := mkCertificate [1] 5
                   [AuthorityKeyIdentifier (repeat 9 20);
                    AuthorityInformationAccess [("1.3.6.1.5.5.7.48.2", "http://ca")]] in
  let good := mkCertificate [1] 5
                [AuthorityKeyIdentifier (repeat 9 20);
                 AuthorityInformationAccess [(ocsp_method_oid, "http://ocsp")]] in
  certificate_ocsp_data sha1_20 no_ocsp = Err DuplicateExtensionException /\
  exists url, certificate_ocsp_data sha1_20 good = Ok (repeat 0 20, repeat 9 20, 5, url).
Proof.
  intros sha1_20 no_ocsp good. split.
  - apply (certificate_ocsp_data_extensions sha1_20 no_ocsp); [reflexivity|].
    right. simpl. discriminate.
  - destruct (proj2 (certificate_ocsp_data_extensions sha1_20 good (fun _ => eq_refl))
                (repeat 9 20) (AuthorityInformationAccess [(ocsp_method_oid, "http://ocsp")])
                eq_refl eq_refl) as (url & Hu & _).
    exists url. exact Hu.
Defined.

(** Claim C8 as stated fails: the issuer key hash is the AKI key
    identifier as found, so an 8-byte key identifier gives an 8-byte
    issuer key hash, not a 20-byte one. *)
Lemma certificate_ocsp_data_short_kid_cex :
  let c := mkCertificate [1] 5
             [AuthorityKeyIdentifier [1; 2; 3; 4; 5; 6; 7; 8];
              AuthorityInformationAccess [(ocsp_method_oid, "http://ocsp")]] in
  certificate_ocsp_data (fun _ => repeat 0 20) c
  = Ok (repeat 0 20, [1; 2; 3; 4; 5; 6; 7; 8], 5, "http://ocsp") /\
  List.length [1; 2; 3; 4; 5; 6; 7; 8] <> 20%nat.
Proof. split; [reflexivity | discriminate]. Qed.

(* ================================================================== *)
(** * Further properties of the code *)

(** ** Certificates *)

(** The certificate store is well formed: handles are distinct and below
    the next free one. *)
Definition cert_store_wf (st : CertStore) : Prop :=
  NoDup (map cert_handle (certs st))
  /\ Forall (fun c => (cert_handle c < cert_next_handle st)%nat) (certs st).

Lemma filter_true_id {A} (l : list A) : filter (fun _ => true) l = l.
Proof. induction l as [|a l IH]; simpl; [reflexivity|now rewrite IH]. Qed.

Lemma filter_filter_and {A} (f g : A -> bool) (l : list A) :
  filter f (filter g l) = filter (fun x => g x && f x) l.
Proof.
  induction l as [|a l IH]; simpl; [reflexivity|].
  destruct (g a); simpl; [destruct (f a); simpl; now rewrite IH|exact IH].
Qed.

Lemma filter_nil_iff {A} (f : A -> bool) (l : list A) :
  (forall x, In x l -> f x = false) -> filter f l = [].
Proof.
  induction l as [|a l IH]; simpl; intros H; [reflexivity|].
  rewrite (H a (or_introl eq_refl)). apply IH. intros x Hx. apply H. now right.
Qed.

(** [cert.destroy()] on each certificate of a list, all of them
    destroyable, removes the handles of that list. *)
Lemma destroy_certs_all ms st :
  (forall m, In m ms -> cert_destroyable m = true) ->
  destroy_certs ms st
  = (Ok tt, mkCertStore (filter (fun x => negb (existsb (fun m => Nat.eqb (cert_handle x) (cert_handle m)) ms))
                                (certs st))
                        (cert_next_handle st)).
Proof.
  revert st. induction ms as [|m ms IH]; intros st Hd; cbn [destroy_certs].
  - rewrite filter_true_id. now destruct st.
  - unfold destroy_cert at 1. rewrite (Hd m (or_introl eq_refl)).
    rewrite IH by (intros m' Hm'; apply Hd; now right). cbn [certs cert_next_handle].
    f_equal. f_equal. rewrite filter_filter_and. apply filter_ext. intros x. cbn [existsb].
    now destruct (Nat.eqb (cert_handle x) (cert_handle m)).
Qed.

Lemma NoDup_map_inj {A B} (f : A -> B) (l : list A) x y :
  NoDup (map f l) -> In x l -> In y l -> f x = f y -> x = y.
Proof.
  induction l as [|a l IH]; simpl; [tauto|].
  intros Hnd Hx Hy Hf. apply NoDup_cons_iff in Hnd as [Hn Hnd].
  destruct Hx as [<-|Hx], Hy as [<-|Hy]; auto.
  - exfalso. apply Hn. rewrite Hf. now apply in_map.
  - exfalso. apply Hn. rewrite <- Hf. now apply in_map.
Qed.

Lemma delete_certificate_state L st :
  cert_store_wf st ->
  (forall c, In c (certs st) -> cert_matches L c = true -> cert_destroyable c = true) ->
  delete_certificate L st
  = (Ok tt, mkCertStore (filter (fun c => negb (cert_matches L c)) (certs st)) (cert_next_handle st)).
Proof.
  intros [Hnd _] Hd. unfold delete_certificate.
  rewrite destroy_certs_all
    by (intros m Hm; apply filter_In in Hm as [Hm Hmm]; now apply Hd).
  f_equal. f_equal. apply filter_ext_in. intros x Hx. f_equal.
  destruct (cert_matches L x) eqn:Em.
  - apply existsb_exists. exists x. split; [now apply filter_In|apply Nat.eqb_refl].
  - apply Bool.not_true_iff_false. intros He. apply existsb_exists in He as [m [Hm He]].
    apply filter_In in Hm as [Hm Hmm]. apply Nat.eqb_eq in He.
    rewrite (NoDup_map_inj cert_handle (certs st) x m Hnd Hx Hm He) in Em. congruence.
Qed.

Lemma nodup_app_fresh (l : list nat) n :
  NoDup l -> Forall (fun x => (x < n)%nat) l -> NoDup (l ++ [n]).
Proof.
  intros Hnd Hf. apply NoDup_app; [exact Hnd|constructor; [intros []|constructor]|].
  intros a Ha [He|[]]. subst a. rewrite Forall_forall in Hf. specialize (Hf n Ha). lia.
Qed.

(** The loop stops at the first certificate that is not destroyable,
    which stays on the token. *)
Lemma destroy_certs_err cs st c :
  In c cs -> cert_destroyable c = false -> In c (certs st) ->
  (forall x y, In x cs -> In y (certs st) -> cert_handle x = cert_handle y -> x = y) ->
  fst (destroy_certs cs st) = Err ActionProhibited /\ In c (certs (snd (destroy_certs cs st))).
Proof.
  revert st. induction cs as [|a cs IH]; intros st Hc Hd Hin Hinj; [destruct Hc|].
  cbn [destroy_certs]. unfold destroy_cert.
  destruct (cert_destroyable a) eqn:Ea; [|split; [reflexivity|exact Hin]].
  assert (Hna : cert_handle c <> cert_handle a).
  { intros He. symmetry in He. pose proof (Hinj a c (or_introl eq_refl) Hin He). congruence. }
  apply IH.
  - destruct Hc as [<-|Hc]; [congruence|exact Hc].
  - exact Hd.
  - cbn [certs]. apply filter_In. split; [exact Hin|].
    apply Nat.eqb_neq in Hna. now rewrite Hna.
  - intros x y Hx Hy. cbn [certs] in Hy. apply filter_In in Hy as [Hy _].
    apply Hinj; [now right|exact Hy].
Qed.

Lemma filter_store_wf f st :
  cert_store_wf st -> cert_store_wf (mkCertStore (filter f (certs st)) (cert_next_handle st)).
Proof.
  intros [Hnd Hf]. split; cbn [certs cert_next_handle].
  - clear Hf. induction (certs st) as [|a l IH]; simpl; [constructor|].
    apply NoDup_cons_iff in Hnd as [Hn Hnd].
    destruct (f a); simpl; [|now apply IH].
    constructor; [|now apply IH]. intros Hin. apply Hn.
    apply in_map_iff in Hin as [y [Hy Hyin]]. apply filter_In in Hyin as [Hyin _].
    rewrite <- Hy. now apply in_map.
  - apply Forall_forall. intros x Hx. apply filter_In in Hx as [Hx _].
    rewrite Forall_forall in Hf. now apply Hf.
Qed.

Lemma destroy_certs_wf cs st :
  cert_store_wf st -> cert_store_wf (snd (destroy_certs cs st)).
Proof.
  revert st. induction cs as [|a cs IH]; intros st Hwf; cbn [destroy_certs]; [exact Hwf|].
  unfold destroy_cert at 1. destruct (cert_destroyable a); [|exact Hwf].
  apply IH. now apply filter_store_wf.
Qed.

(** X1: importing a certificate under a label that a certificate already
    has raises [ValueError] and changes nothing. *)
Theorem import_certificate_existing_label P cert_pem L st c :
  In c (certs st) -> certobj_label c = L ->
  import_certificate P cert_pem L st = (Err ValueError, st).
Proof.
  intros Hin Hl. unfold import_certificate.
  destruct (filter (cert_matches L) (certs st)) eqn:E; [|reflexivity].
  assert (In c (filter (cert_matches L) (certs st))) as H.
  { apply filter_In. split; [exact Hin|]. unfold cert_matches. rewrite Hl. apply String.eqb_refl. }
  rewrite E in H. destruct H.
Qed.

Lemma import_certificate_existing_label_witness :
  import_certificate pem0 [45; 1] "ca" (mkCertStore [mkCertObj 0 "ca" [7] true] 1)
  = (Err ValueError, mkCertStore [mkCertObj 0 "ca" [7] true] 1).
Proof. apply (import_certificate_existing_label pem0 [45; 1] "ca" _ (mkCertObj 0 "ca" [7] true)); simpl; auto. Defined.

(** X2: a successful import appends one certificate object holding the DER
    (the unarmored PEM, or the input itself when it is not PEM), and
    [export_certificate] of the label then returns that DER armored as
    ["CERTIFICATE"]. *)
Theorem import_then_export_certificate P X cert_pem L st st1 :
  import_certificate P cert_pem L st = (Ok tt, st1) ->
  let der := if pem_detect P cert_pem then pem_unarmor P cert_pem else cert_pem in
  certs st1 = certs st ++ [mkCertObj (cert_next_handle st) L der true]
  /\ export_certificate X L st1 = (Ok (pem_armor X "CERTIFICATE" der), st1).
Proof.
  unfold import_certificate. destruct (filter (cert_matches L) (certs st)) eqn:E; [|discriminate].
  destruct (x509_decodes P _); [|discriminate].
  intros H. inversion H; subst; clear H. simpl. split; [reflexivity|].
  unfold export_certificate; simpl. rewrite filter_app, E; simpl.
  unfold cert_matches at 1; simpl. rewrite String.eqb_refl. reflexivity.
Qed.

Lemma import_then_export_certificate_witness :
  import_certificate pem0 [45; 9; 9] "ca" empty_store
  = (Ok tt, mkCertStore [mkCertObj 0 "ca" [9; 9] true] 1)
  /\ export_certificate ext0 "ca" (mkCertStore [mkCertObj 0 "ca" [9; 9] true] 1)
     = (Ok [9; 9], mkCertStore [mkCertObj 0 "ca" [9; 9] true] 1).
Proof.
  split; [reflexivity|].
  exact (proj2 (import_then_export_certificate pem0 ext0 [45; 9; 9] "ca" empty_store
                  (mkCertStore [mkCertObj 0 "ca" [9; 9] true] 1) eq_refl)).
Defined.

(** X3: on a well formed store, when every certificate with the label is
    destroyable, [delete_certificate] succeeds, removes exactly the
    certificates with the label (none is an error-free no-op) and keeps
    the others in order; [export_certificate] of the label then raises
    [ValueError]. When one certificate with the label is not destroyable,
    [delete_certificate] raises [ActionProhibited] and that certificate
    stays on the token. *)
Theorem delete_certificate_removes_label X L st :
  cert_store_wf st ->
  ((forall c, In c (certs st) -> cert_matches L c = true -> cert_destroyable c = true) ->
     delete_certificate L st
     = (Ok tt, mkCertStore (filter (fun c => negb (cert_matches L c)) (certs st)) (cert_next_handle st))
     /\ fst (export_certificate X L (snd (delete_certificate L st))) = Err ValueError)
  /\ (forall c, In c (certs st) -> cert_matches L c = true -> cert_destroyable c = false ->
        fst (delete_certificate L st) = Err ActionProhibited
        /\ In c (certs (snd (delete_certificate L st)))).
Proof.
  intros Hwf. split.
  - intros Hd. pose proof (delete_certificate_state L st Hwf Hd) as Hs.
    split; [exact Hs|].
    rewrite Hs. unfold export_certificate; simpl.
    rewrite filter_filter_and, filter_nil_iff; [reflexivity|].
    intros x _. now destruct (cert_matches L x).
  - intros c Hin Hm Hd. unfold delete_certificate.
    apply destroy_certs_err; [now apply filter_In|exact Hd|exact Hin|].
    intros x y Hx Hy. apply filter_In in Hx as [Hx _].
    exact (NoDup_map_inj cert_handle (certs st) x y (proj1 Hwf) Hx Hy).
Qed.

Lemma delete_certificate_removes_label_witness :
  delete_certificate "ca"
    (mkCertStore [mkCertObj 0 "ca" [1] true; mkCertObj 1 "ee" [2] true; mkCertObj 2 "ca" [3] true] 3)
  = (Ok tt, mkCertStore [mkCertObj 1 "ee" [2] true] 3)
  /\ fst (delete_certificate "ca"
            (mkCertStore [mkCertObj 0 "ca" [1] true; mkCertObj 1 "ee" [2] true; mkCertObj 2 "ca" [3] false] 3))
     = Err ActionProhibited.
Proof.
  assert (Hwf : forall b, cert_store_wf
    (mkCertStore [mkCertObj 0 "ca" [1] true; mkCertObj 1 "ee" [2] true; mkCertObj 2 "ca" [3] b] 3)).
  { intros b. split; simpl.
    - repeat constructor; simpl; intuition discriminate.
    - repeat constructor. }
  split.
  - refine (proj1 (proj1 (delete_certificate_removes_label ext0 "ca" _ (Hwf true)) _)).
    intros c Hc _. simpl in Hc. intuition (subst; reflexivity).
  - apply (proj2 (delete_certificate_removes_label ext0 "ca" _ (Hwf false)) (mkCertObj 2 "ca" [3] false));
      simpl; auto.
Defined.

(** X4: [import_certificate] and [delete_certificate] keep the certificate
    store well formed (distinct handles below the next free one). *)
Theorem certificate_ops_keep_handles_distinct P cert_pem L st :
  cert_store_wf st ->
  cert_store_wf (snd (import_certificate P cert_pem L st))
  /\ cert_store_wf (snd (delete_certificate L st)).
Proof.
  intros Hwf. split.
  - unfold import_certificate.
    destruct (filter _ _); [|exact Hwf].
    destruct (x509_decodes P _); [|exact Hwf].
    destruct Hwf as [Hnd Hf]. unfold create_cert_object, cert_store_wf; simpl. split.
    + rewrite map_app. simpl. apply nodup_app_fresh; [exact Hnd|].
      apply Forall_map. exact Hf.
    + apply Forall_app. split.
      * eapply Forall_impl; [|exact Hf]. simpl. intros a Ha. lia.
      * constructor; [simpl; lia|constructor].
  - unfold delete_certificate. now apply destroy_certs_wf.
Qed.

Lemma certificate_ops_keep_handles_distinct_witness :
  cert_store_wf (snd (import_certificate pem0 [45; 1] "ca" empty_store))
  /\ cert_store_wf (snd (delete_certificate "ca" empty_store)).
Proof. apply certificate_ops_keep_handles_distinct. split; simpl; constructor. Defined.

(** ** Keys: importing, creating, deleting *)

(** The token is well formed: handles are distinct and below the next
    free one. *)
Definition dev_wf (d : Device) : Prop :=
  NoDup (map obj_handle (objects d))
  /\ Forall (fun o => (obj_handle o < next_handle d)%nat) (objects d).

Lemma key_matches_self h cls kt L p v de :
  key_matches kt cls L (mkObj h cls kt L p v de) = true.
Proof. unfold key_matches; simpl. rewrite KeyType_eqb_refl, String.eqb_refl. now destruct cls. Qed.

Lemma key_matches_class h c1 c2 kt kt' L L' p v de :
  ObjectClass_eqb c1 c2 = false -> key_matches kt c2 L (mkObj h c1 kt' L' p v de) = false.
Proof. intros H. unfold key_matches; simpl. rewrite H. now destruct (KeyType_eqb kt' kt). Qed.

Lemma get_key_unique kt cls L d o :
  filter (key_matches kt cls L) (objects d) = [o] -> get_key kt cls L d = (Ok o, d).
Proof. intros H. unfold get_key. now rewrite H. Qed.

Lemma get_key_none kt cls L d :
  filter (key_matches kt cls L) (objects d) = [] -> get_key kt cls L d = (Err NoSuchKey, d).
Proof. intros H. unfold get_key. now rewrite H. Qed.

Lemma get_key_many kt cls L d a b l :
  filter (key_matches kt cls L) (objects d) = a :: b :: l ->
  get_key kt cls L d = (Err MultipleObjectsReturned, d).
Proof. intros H. unfold get_key. now rewrite H. Qed.

Lemma filter_keep_fresh (l : list Obj) n m :
  Forall (fun o => (obj_handle o < n)%nat) l -> (n <= m)%nat ->
  filter (fun x => negb (Nat.eqb (obj_handle x) m)) l = l.
Proof.
  intros Hf Hle. induction Hf as [|x l Hx Hf IH]; simpl; [reflexivity|].
  rewrite IH. destruct (Nat.eqb_spec (obj_handle x) m); [lia|reflexivity].
Qed.

Lemma destroy_after os rest o m b :
  obj_destroyable o = true ->
  Forall (fun x => (obj_handle x < b)%nat) os -> (b <= obj_handle o)%nat ->
  Forall (fun x => obj_handle x <> obj_handle o) rest ->
  destroy o (mkDevice (os ++ o :: rest) m) = (Ok tt, mkDevice (os ++ rest) m).
Proof.
  intros Hd Hos Hb Hr. unfold destroy. rewrite Hd. simpl.
  rewrite filter_app, (filter_keep_fresh _ b) by assumption. simpl.
  rewrite Nat.eqb_refl. simpl. do 3 f_equal.
  induction Hr as [|x l Hx Hr IH]; simpl; [reflexivity|].
  destruct (Nat.eqb_spec (obj_handle x) (obj_handle o)); [contradiction|].
  simpl. now rewrite IH.
Qed.

Lemma NoDup_map_filter {A B} (f : A -> B) (g : A -> bool) (l : list A) :
  NoDup (map f l) -> NoDup (map f (filter g l)).
Proof.
  induction l as [|a l IH]; simpl; [constructor|].
  intros Hnd. apply NoDup_cons_iff in Hnd as [Hn Hnd].
  destruct (g a); simpl; [|now apply IH].
  constructor; [|now apply IH]. intros Hin. apply Hn.
  apply in_map_iff in Hin as [y [Hy Hyin]]. apply filter_In in Hyin as [Hyin _].
  rewrite <- Hy. now apply in_map.
Qed.

Lemma dev_wf_append d o :
  dev_wf d -> obj_handle o = next_handle d ->
  dev_wf (mkDevice (objects d ++ [o]) (S (next_handle d))).
Proof.
  intros [Hnd Hf] Ho. split; simpl.
  - rewrite map_app; simpl. rewrite Ho. apply nodup_app_fresh; [exact Hnd|].
    apply Forall_map. exact Hf.
  - apply Forall_app. split.
    + eapply Forall_impl; [|exact Hf]. simpl. intros a Ha. lia.
    + constructor; [lia|constructor].
Qed.

Lemma destroy_wf o d : dev_wf d -> dev_wf (snd (destroy o d)).
Proof.
  intros [Hnd Hf]. unfold destroy. destruct (obj_destroyable o); [|split; assumption].
  split; simpl.
  - now apply NoDup_map_filter.
  - apply Forall_forall. intros x Hx. apply filter_In in Hx as [Hx _].
    rewrite Forall_forall in Hf. now apply Hf.
Qed.

Lemma delete_one_wf kt cls L d :
  dev_wf d -> dev_wf (snd ((o <- get_key kt cls L ;; destroy o) d)).
Proof.
  intros Hwf. unfold bind. destruct (get_key kt cls L d) as [[o|e] d'] eqn:E;
    pose proof (get_key_state kt cls L d) as Hs; rewrite E in Hs; simpl in Hs; subst d'.
  - now apply destroy_wf.
  - exact Hwf.
Qed.

(** What a successful [create_keypair] left on the token. *)
Lemma create_keypair_shape X L T d r d1 :
  create_keypair X L T d = (Ok r, d1) ->
  filter (key_matches (KEY_TYPE_VALUES T) PUBLIC_KEY L) (objects d) = []
  /\ exists p,
       d1 = mkDevice (objects d ++
              [mkObj (next_handle d) PUBLIC_KEY (KEY_TYPE_VALUES T) L p (keygen X p (next_handle d)) true;
               mkObj (S (next_handle d)) PRIVATE_KEY (KEY_TYPE_VALUES T) L p [] true])
              (S (S (next_handle d)))
       /\ r = _public_key_data X (mkObj (next_handle d) PUBLIC_KEY (KEY_TYPE_VALUES T) L p
                                   (keygen X p (next_handle d)) true) T
       /\ p = if keytype_in T [RSA2048; RSA4096] then RsaModulusBits (rsa_bits T)
              else EcNamedCurve (curve_oid T).
Proof.
  unfold create_keypair, _get_pub_key, get_key.
  destruct (filter _ (objects d)) as [|o [|o' l]] eqn:E; try discriminate.
  intros H. split; [reflexivity|].
  destruct T; simpl in H; inversion H; subst; clear H; eexists; repeat split; reflexivity.
Qed.

Lemma family_decoders_kt K T : fst (fst (family_decoders K T)) = KEY_TYPE_VALUES T.
Proof. destruct T; reflexivity. Qed.

(** X5: [import_keypair] under a label whose family has no public key yet
    raises the decoder's exception and leaves the token unchanged when the
    public key, or else the private key, does not decode. When both
    decode, it succeeds: it appends the public and then the private object
    with that label, the family's key type and the decoded parameters and
    values; [public_key_data] then finds the imported public key, and
    [create_keypair] for the same label and family raises
    [MultipleObjectsReturned]. *)
Theorem import_keypair_fresh_label K X public_key private_key L T d :
  filter (key_matches (KEY_TYPE_VALUES T) PUBLIC_KEY L) (objects d) = [] ->
  (forall e,
     snd (fst (family_decoders K T)) public_key = Err e
     \/ (exists pv, snd (fst (family_decoders K T)) public_key = Ok pv
                    /\ snd (family_decoders K T) private_key = Err e) ->
     import_keypair K public_key private_key L T d = (Err e, d))
  /\ (forall pv qv,
     snd (fst (family_decoders K T)) public_key = Ok pv ->
     snd (family_decoders K T) private_key = Ok qv ->
     exists kp kq d1,
       import_keypair K public_key private_key L T d = (Ok tt, d1)
       /\ objects d1 = objects d ++ [kp; kq]
       /\ obj_class kp = PUBLIC_KEY /\ obj_class kq = PRIVATE_KEY
       /\ obj_label kp = L /\ obj_label kq = L
       /\ obj_key_type kp = KEY_TYPE_VALUES T /\ obj_key_type kq = KEY_TYPE_VALUES T
       /\ obj_params kp = fst pv /\ obj_value kp = snd pv
       /\ obj_params kq = fst qv /\ obj_value kq = snd qv
       /\ public_key_data X L T d1 = (Ok (_public_key_data X kp T), d1)
       /\ (forall T', KEY_TYPE_VALUES T' = KEY_TYPE_VALUES T ->
                      fst (create_keypair X L T' d1) = Err MultipleObjectsReturned)).
Proof.
  intros E.
  assert (Himp :
    import_keypair K public_key private_key L T d
    = match snd (fst (family_decoders K T)) public_key with
      | Err e => (Err e, d)
      | Ok pv =>
          match snd (family_decoders K T) private_key with
          | Err e => (Err e, d)
          | Ok qv =>
              bind (create_object PUBLIC_KEY (KEY_TYPE_VALUES T) L pv)
                   (fun _ => create_object PRIVATE_KEY (KEY_TYPE_VALUES T) L qv) d
          end
      end).
  { unfold import_keypair, _get_pub_key. rewrite (get_key_none _ _ _ _ E).
    rewrite <- (family_decoders_kt K T).
    destruct (family_decoders K T) as [[kt dp] dq]. reflexivity. }
  split.
  - intros e [He|(pv & Hp & Hq)]; rewrite Himp; [now rewrite He|now rewrite Hp, Hq].
  - intros pv qv Hp Hq. rewrite Himp, Hp, Hq. unfold bind, create_object; simpl.
    set (kp := mkObj (next_handle d) PUBLIC_KEY (KEY_TYPE_VALUES T) L (fst pv) (snd pv) true).
    set (kq := mkObj (S (next_handle d)) PRIVATE_KEY (KEY_TYPE_VALUES T) L (fst qv) (snd qv) true).
    exists kp, kq. eexists. split; [reflexivity|].
    rewrite <- app_assoc. simpl.
    assert (Hf : forall kt, kt = KEY_TYPE_VALUES T ->
              filter (key_matches kt PUBLIC_KEY L) (objects d ++ [kp; kq]) = [kp]).
    { intros kt ->. rewrite filter_app, E. simpl.
      unfold kp at 1. rewrite key_matches_self.
      unfold kq. rewrite key_matches_class by reflexivity. reflexivity. }
    repeat split; try reflexivity.
    + unfold public_key_data, _get_pub_key, bind. rewrite (get_key_unique _ _ _ _ kp); [reflexivity|].
      now apply Hf.
    + intros T' HT. unfold create_keypair, _get_pub_key.
      rewrite (get_key_unique _ _ _ _ kp); [reflexivity|]. now apply Hf.
Qed.

Lemma import_keypair_fresh_label_witness :
  import_keypair dec0 [] [9] "ee" SECP256r1 empty_device = (Err ValueError, empty_device)
  /\ exists kp kq d1,
    import_keypair dec0 [4; 1] [9] "ee" SECP256r1 empty_device = (Ok tt, d1)
    /\ objects d1 = [kp; kq] /\ obj_value kp = [4; 1]
    /\ public_key_data ext0 "ee" SECP256r1 d1 = (Ok (_public_key_data ext0 kp SECP256r1), d1).
Proof.
  split.
  - apply (proj1 (import_keypair_fresh_label dec0 ext0 [] [9] "ee" SECP256r1 empty_device eq_refl)).
    left. reflexivity.
  - destruct (proj2 (import_keypair_fresh_label dec0 ext0 [4; 1] [9] "ee" SECP256r1 empty_device eq_refl)
                (EcNamedCurve "1.2.840.10045.3.1.7", [4; 1]) (EcNamedCurve "1.2.840.10045.3.1.7", [9])
                eq_refl eq_refl)
      as (kp & kq & d1 & H1 & H2 & _ & _ & _ & _ & _ & _ & _ & H3 & _ & _ & H4 & _).
    exists kp, kq, d1. repeat split; assumption.
Defined.

(** X6: [import_keypair] under a label whose family already has a public
    key raises [MultipleObjectsReturned] and leaves the token unchanged
    (also when several such keys exist). *)
Theorem import_keypair_existing_public K public_key private_key L T d o :
  In o (objects d) -> key_matches (KEY_TYPE_VALUES T) PUBLIC_KEY L o = true ->
  import_keypair K public_key private_key L T d = (Err MultipleObjectsReturned, d).
Proof.
  intros Hin Hm. unfold import_keypair, _get_pub_key, get_key.
  assert (In o (filter (key_matches (KEY_TYPE_VALUES T) PUBLIC_KEY L) (objects d))) as H
    by (apply filter_In; auto).
  destruct (filter _ (objects d)) as [|a [|b l]]; [destruct H|reflexivity|reflexivity].
Qed.

Lemma import_keypair_existing_public_witness :
  import_keypair dec0 [1] [2] "ca" RSA4096
    (mkDevice [mkObj 0 PUBLIC_KEY KT_RSA "ca" (RsaModulusBits 2048) [5] true] 1)
  = (Err MultipleObjectsReturned,
     mkDevice [mkObj 0 PUBLIC_KEY KT_RSA "ca" (RsaModulusBits 2048) [5] true] 1).
Proof.
  apply (import_keypair_existing_public dec0 [1] [2] "ca" RSA4096 _
           (mkObj 0 PUBLIC_KEY KT_RSA "ca" (RsaModulusBits 2048) [5] true));
    simpl; auto.
Defined.

(** X7: on a well formed token with no private key under the label and
    family, [delete_keypair] after a successful [create_keypair] succeeds
    and removes exactly the two created objects; [public_key_data] then
    raises [NoSuchKey]. *)
Theorem create_then_delete_keypair X L T d r d1 :
  dev_wf d ->
  filter (key_matches (KEY_TYPE_VALUES T) PRIVATE_KEY L) (objects d) = [] ->
  create_keypair X L T d = (Ok r, d1) ->
  delete_keypair L T d1 = (Ok tt, mkDevice (objects d) (S (S (next_handle d))))
  /\ fst (public_key_data X L T (snd (delete_keypair L T d1))) = Err NoSuchKey.
Proof.
  intros [_ Hf] Hpriv Hc. apply create_keypair_shape in Hc as [Hpub [p [-> _]]].
  set (n := next_handle d) in *.
  set (pub := mkObj n PUBLIC_KEY (KEY_TYPE_VALUES T) L p (keygen X p n) true).
  set (priv := mkObj (S n) PRIVATE_KEY (KEY_TYPE_VALUES T) L p [] true).
  assert (Hdel : delete_keypair L T (mkDevice (objects d ++ [pub; priv]) (S (S n)))
                 = (Ok tt, mkDevice (objects d) (S (S n)))).
  { unfold delete_keypair, try_finally, delete_public, delete_private, bind.
    rewrite (get_key_unique _ _ _ _ pub).
    2:{ simpl. rewrite filter_app, Hpub. simpl. unfold pub at 1. rewrite key_matches_self.
        unfold priv. rewrite key_matches_class by reflexivity. reflexivity. }
    rewrite (destroy_after (objects d) [priv] pub _ n); simpl; auto.
    rewrite (get_key_unique _ _ _ _ priv).
    2:{ simpl. rewrite filter_app, Hpriv. simpl. unfold priv at 1. rewrite key_matches_self.
        reflexivity. }
    rewrite <- (app_nil_r (objects d ++ [priv])), <- app_assoc.
    rewrite (destroy_after (objects d) [] priv _ n); simpl; auto.
    now rewrite app_nil_r. }
  rewrite Hdel. split; [reflexivity|].
  unfold public_key_data, _get_pub_key, bind. rewrite get_key_none; [reflexivity|exact Hpub].
Qed.

Lemma create_then_delete_keypair_witness :
  delete_keypair "ca" ED448 (snd (create_keypair ext0 "ca" ED448 empty_device))
  = (Ok tt, mkDevice [] 2)
  /\ fst (public_key_data ext0 "ca" ED448
            (snd (delete_keypair "ca" ED448 (snd (create_keypair ext0 "ca" ED448 empty_device)))))
     = Err NoSuchKey.
Proof.
  eapply (create_then_delete_keypair ext0 "ca" ED448 empty_device).
  - split; constructor.
  - reflexivity.
  - reflexivity.
Defined.

Lemma sign_private_error X L data vs T d e :
  (forall mech data', _sign X L data' vs mech T d = (Err e, d)) ->
  sign X L data vs T d = (Err e, d).
Proof.
  intros H. unfold sign.
  destruct (if keytype_in T [ED25519; ED448] then _ else _) as [mech data'].
  unfold bind at 1. now rewrite H.
Qed.

(** X8: [create_keypair] only looks for a public key. On a well formed
    token holding a private key, but no public key, under the label and
    family, it succeeds, after which [sign] and [delete_keypair] of that
    label raise [MultipleObjectsReturned]. *)
Theorem create_keypair_over_orphan_private X L T d o data verify_signature :
  dev_wf d ->
  In o (objects d) -> key_matches (KEY_TYPE_VALUES T) PRIVATE_KEY L o = true ->
  filter (key_matches (KEY_TYPE_VALUES T) PUBLIC_KEY L) (objects d) = [] ->
  exists r d1,
    create_keypair X L T d = (Ok r, d1)
    /\ fst (sign X L data verify_signature T d1) = Err MultipleObjectsReturned
    /\ fst (delete_keypair L T d1) = Err MultipleObjectsReturned.
Proof.
  intros [_ Hf] Hin Hm Hpub.
  destruct (create_keypair_fresh_ok X L T d Hpub) as [r [d1 Hc]].
  exists r, d1. split; [exact Hc|].
  apply create_keypair_shape in Hc as [_ [p [-> _]]].
  set (n := next_handle d) in *.
  set (pub := mkObj n PUBLIC_KEY (KEY_TYPE_VALUES T) L p (keygen X p n) true).
  set (priv := mkObj (S n) PRIVATE_KEY (KEY_TYPE_VALUES T) L p [] true).
  assert (Ho : In o (filter (key_matches (KEY_TYPE_VALUES T) PRIVATE_KEY L) (objects d)))
    by (apply filter_In; auto).
  destruct (filter (key_matches (KEY_TYPE_VALUES T) PRIVATE_KEY L) (objects d)) as [|a l] eqn:Ep;
    [destruct Ho|].
  split.
  - rewrite sign_private_error with (e := MultipleObjectsReturned); [reflexivity|].
    intros mech data'. unfold _sign, bind.
    destruct l as [|b l].
    + rewrite (get_key_many _ _ _ _ a priv []); [reflexivity|].
      simpl. rewrite filter_app, Ep. simpl. unfold pub. rewrite key_matches_class by reflexivity.
      unfold priv. rewrite key_matches_self. reflexivity.
    + rewrite (get_key_many _ _ _ _ a b (l ++ filter (key_matches (KEY_TYPE_VALUES T) PRIVATE_KEY L) [pub; priv]));
        [reflexivity|].
      simpl. rewrite filter_app, Ep. reflexivity.
  - unfold delete_keypair, try_finally, delete_public, delete_private, bind.
    rewrite (get_key_unique _ _ _ _ pub).
    2:{ simpl. rewrite filter_app, Hpub. simpl. unfold pub at 1. rewrite key_matches_self.
        unfold priv. rewrite key_matches_class by reflexivity. reflexivity. }
    rewrite (destroy_after (objects d) [priv] pub _ n); simpl; auto.
    rewrite (get_key_many _ _ _ _ a (hd priv (l ++ [priv])) (tl (l ++ [priv]))); [reflexivity|].
    simpl. rewrite filter_app, Ep. simpl. unfold priv at 1. rewrite key_matches_self.
    destruct l; reflexivity.
Qed.

Lemma create_keypair_over_orphan_private_witness :
  exists r d1,
    create_keypair ext0 "ca" RSA2048
      (mkDevice [mkObj 0 PRIVATE_KEY KT_RSA "ca" (RsaModulusBits 4096) [] true] 1) = (Ok r, d1)
    /\ fst (sign ext0 "ca" [1; 2] false RSA2048 d1) = Err MultipleObjectsReturned
    /\ fst (delete_keypair "ca" RSA2048 d1) = Err MultipleObjectsReturned.
Proof.
  apply (create_keypair_over_orphan_private ext0 "ca" RSA2048
           (mkDevice [mkObj 0 PRIVATE_KEY KT_RSA "ca" (RsaModulusBits 4096) [] true] 1)
           (mkObj 0 PRIVATE_KEY KT_RSA "ca" (RsaModulusBits 4096) [] true)).
  - split; simpl; repeat constructor; simpl; auto.
  - simpl; auto.
  - reflexivity.
  - reflexivity.
Defined.

(** X9: [create_keypair], [import_keypair] and [delete_keypair] keep the
    token well formed (distinct handles below the next free one), whatever
    their outcome. *)
Theorem key_ops_keep_handles_distinct X K public_key private_key L T d :
  dev_wf d ->
  dev_wf (snd (create_keypair X L T d))
  /\ dev_wf (snd (import_keypair K public_key private_key L T d))
  /\ dev_wf (snd (delete_keypair L T d)).
Proof.
  intros Hwf. split; [|split].
  - destruct (create_keypair X L T d) as [[r|e] d1] eqn:Hc; simpl.
    + apply create_keypair_shape in Hc as [_ [p [-> _]]].
      change [mkObj (next_handle d) PUBLIC_KEY (KEY_TYPE_VALUES T) L p (keygen X p (next_handle d)) true;
              mkObj (S (next_handle d)) PRIVATE_KEY (KEY_TYPE_VALUES T) L p [] true]
        with ([mkObj (next_handle d) PUBLIC_KEY (KEY_TYPE_VALUES T) L p (keygen X p (next_handle d)) true]
              ++ [mkObj (S (next_handle d)) PRIVATE_KEY (KEY_TYPE_VALUES T) L p [] true]).
      rewrite app_assoc.
      apply (dev_wf_append (mkDevice _ (S (next_handle d))));
        [apply dev_wf_append|]; simpl; auto.
    + unfold create_keypair, _get_pub_key in Hc.
      pose proof (get_key_state (KEY_TYPE_VALUES T) PUBLIC_KEY L d) as Hs.
      destruct (get_key (KEY_TYPE_VALUES T) PUBLIC_KEY L d) as [[o|[]] d0]; simpl in Hs; subst d0;
        try (inversion Hc; subst; exact Hwf).
      destruct T; simpl in Hc; discriminate.
  - unfold import_keypair, _get_pub_key.
    pose proof (get_key_state (KEY_TYPE_VALUES T) PUBLIC_KEY L d) as Hs.
    destruct (get_key (KEY_TYPE_VALUES T) PUBLIC_KEY L d) as [[o|[]] d0]; simpl in Hs; subst d0;
      try exact Hwf.
    assert (Hco : forall cls kt pv d', dev_wf d' -> dev_wf (snd (create_object cls kt L pv d'))).
    { intros cls kt pv d' Hw. unfold create_object; simpl. now apply dev_wf_append. }
    destruct (family_decoders K T) as [[kt dp] dq].
    destruct (dp public_key) as [kp|e]; [|exact Hwf].
    destruct (dq private_key) as [kq|e]; [|exact Hwf].
    unfold bind. destruct (create_object PUBLIC_KEY kt L kp d) as [[u|e] d1] eqn:E1.
    + apply (Hco PRIVATE_KEY kt kq d1).
      replace d1 with (snd (create_object PUBLIC_KEY kt L kp d)) by (now rewrite E1).
      now apply Hco.
    + unfold create_object in E1. discriminate.
  - unfold delete_keypair, try_finally.
    destruct (delete_public L T d) as [r d1] eqn:E1.
    assert (H1 : dev_wf d1).
    { replace d1 with (snd (delete_public L T d)) by (now rewrite E1). now apply delete_one_wf. }
    destruct (delete_private L T d1) as [[u|e] d2] eqn:E2;
      replace d2 with (snd (delete_private L T d1)) by (now rewrite E2);
      now apply delete_one_wf.
Qed.

Lemma key_ops_keep_handles_distinct_witness :
  dev_wf (snd (create_keypair ext0 "ca" SECP384r1 empty_device))
  /\ dev_wf (snd (import_keypair dec0 [1] [2] "ca" SECP384r1 empty_device))
  /\ dev_wf (snd (delete_keypair "ca" SECP384r1 empty_device)).
Proof. apply key_ops_keep_handles_distinct. split; constructor. Defined.

(** ** Listing the keys *)

Fixpoint last_opt {A} (l : list A) : option A :=
  match l with
  | [] => None
  | x :: t => match last_opt t with Some y => Some y | None => Some x end
  end.

Lemma dict_get_set k k' v (d : dict) :
  dict_get k (dict_set k' v d) = if String.eqb k' k then Some v else dict_get k d.
Proof.
  induction d as [|[k0 v0] t IH]; simpl.
  - now destruct (String.eqb k' k).
  - destruct (String.eqb_spec k0 k'); simpl.
    + subst k0. destruct (String.eqb k' k); reflexivity.
    + rewrite IH. destruct (String.eqb_spec k' k), (String.eqb_spec k0 k); congruence.
Qed.

Lemma set_all_get f os kl k :
  dict_get k (set_all f os kl)
  = match last_opt (filter (fun o => String.eqb (obj_label o) k) os) with
    | Some o => Some (f o)
    | None => dict_get k kl
    end.
Proof.
  unfold set_all. revert kl. induction os as [|o os IH]; intros kl; simpl; [reflexivity|].
  rewrite IH, dict_get_set.
  destruct (String.eqb (obj_label o) k); simpl;
    destruct (last_opt (filter _ os)); reflexivity.
Qed.

Lemma set_all_congr f os os' kl kl' k :
  filter (fun o => String.eqb (obj_label o) k) os = filter (fun o => String.eqb (obj_label o) k) os' ->
  dict_get k kl = dict_get k kl' ->
  dict_get k (set_all f os kl) = dict_get k (set_all f os' kl').
Proof. intros H1 H2. rewrite !set_all_get, H1, H2. reflexivity. Qed.

(** The public keys with a given label. *)
Definition pub_labelled (L : string) (d : Device) : list Obj :=
  filter (fun o => ObjectClass_eqb (obj_class o) PUBLIC_KEY && String.eqb (obj_label o) L) (objects d).

Lemma get_objects_pub_local kt p L d :
  filter (fun o => String.eqb (obj_label o) L) (get_objects_pub kt p d)
  = filter (fun o => String.eqb (obj_label o) L) (get_objects_pub kt p (mkDevice (pub_labelled L d) 0)).
Proof.
  unfold get_objects_pub, pub_labelled; simpl. rewrite !filter_filter_and. apply filter_ext.
  intros o. destruct p as [p|];
    destruct (ObjectClass_eqb (obj_class o) PUBLIC_KEY), (KeyType_eqb (obj_key_type o) kt),
             (String.eqb (obj_label o) L); try reflexivity;
    destruct (Params_eqb (obj_params o) p); reflexivity.
Qed.

(** The entry of a label in [key_labels] depends only on the public keys
    with that label. *)
Lemma key_labels_local L d :
  dict_get L (key_labels d) = dict_get L (key_labels (mkDevice (pub_labelled L d) 0)).
Proof.
  unfold key_labels. cbn [fold_left].
  repeat (apply set_all_congr; [apply get_objects_pub_local|]). reflexivity.
Qed.

Lemma pub_labelled_app L os os' n :
  pub_labelled L (mkDevice (os ++ os') n) = pub_labelled L (mkDevice os 0) ++ pub_labelled L (mkDevice os' 0).
Proof. unfold pub_labelled; simpl. apply filter_app. Qed.

Lemma pub_labelled_In L d o :
  In o (pub_labelled L d) -> obj_class o = PUBLIC_KEY /\ obj_label o = L.
Proof.
  unfold pub_labelled. intros H. apply filter_In in H as [_ H].
  apply andb_prop in H as [H1 H2]. apply String.eqb_eq in H2.
  split; [|exact H2]. destruct (obj_class o); simpl in H1; congruence.
Qed.

(** X10: after a successful [create_keypair] under a label no public key
    had, [key_labels] lists that label with the key type's name ("rsa_2048",
    "ed25519", "secp384r1", ...). *)
Theorem create_keypair_then_key_labels X L T d r d1 :
  pub_labelled L d = [] ->
  create_keypair X L T d = (Ok r, d1) ->
  dict_get L (key_labels d1) = Some (keytype_value T).
Proof.
  intros Hn Hc. apply create_keypair_shape in Hc as [_ [p [-> [_ ->]]]].
  rewrite key_labels_local, pub_labelled_app.
  replace (pub_labelled L (mkDevice (objects d) 0)) with (@nil Obj) by (symmetry; exact Hn).
  unfold pub_labelled at 1; cbn [objects filter obj_class obj_label ObjectClass_eqb andb app].
  rewrite String.eqb_refl.
  destruct T; cbn; repeat (rewrite String.eqb_refl; cbn); reflexivity.
Qed.

Lemma create_keypair_then_key_labels_witness :
  dict_get "ca" (key_labels (snd (create_keypair ext0 "ca" RSA4096 empty_device))) = Some "rsa_4096".
Proof.
  eapply (create_keypair_then_key_labels ext0 "ca" RSA4096 empty_device); reflexivity.
Defined.

(** X11: [key_labels] keeps one key type per label: when the public keys of
    a label are an RSA key and a key on one of the curves, the later query
    (the curve) overwrites the RSA entry. *)
Theorem key_labels_curve_overwrites_rsa L d ors oec T :
  keytype_in T [RSA2048; RSA4096] = false ->
  obj_key_type ors = KT_RSA ->
  obj_key_type oec = KEY_TYPE_VALUES T -> obj_params oec = EcNamedCurve (curve_oid T) ->
  pub_labelled L d = [ors; oec] \/ pub_labelled L d = [oec; ors] ->
  dict_get L (key_labels d) = Some (keytype_value T).
Proof.
  intros HT Hr Hk Hp Hd.
  assert (Hi : In ors (pub_labelled L d) /\ In oec (pub_labelled L d))
    by (destruct Hd as [-> | ->]; simpl; auto).
  destruct Hi as [Hi1 Hi2].
  apply pub_labelled_In in Hi1 as [Hc1 Hl1]. apply pub_labelled_In in Hi2 as [Hc2 Hl2].
  rewrite key_labels_local.
  destruct ors as [h1 c1 k1 l1 p1 v1 e1], oec as [h2 c2 k2 l2 p2 v2 e2]; simpl in *.
  subst.
  destruct Hd as [-> | ->];
    destruct T; try discriminate HT; cbn; repeat (rewrite String.eqb_refl; cbn); reflexivity.
Qed.

Lemma key_labels_curve_overwrites_rsa_witness :
  dict_get "ca" (key_labels (mkDevice
    [mkObj 0 PUBLIC_KEY KT_RSA "ca" (RsaModulusBits 2048) [1] true;
     mkObj 1 PUBLIC_KEY KT_EC_EDWARDS "ca" (EcNamedCurve "1.3.101.112") [2] true] 2))
  = Some "ed25519".
Proof.
  apply (key_labels_curve_overwrites_rsa "ca" _
           (mkObj 0 PUBLIC_KEY KT_RSA "ca" (RsaModulusBits 2048) [1] true)
           (mkObj 1 PUBLIC_KEY KT_EC_EDWARDS "ca" (EcNamedCurve "1.3.101.112") [2] true)
           ED25519); try reflexivity.
  left. reflexivity.
Defined.

(** ** Signing with [verify_signature] *)

(** X12: with a single private and a single public key under the label and
    family, [_sign] with [verify_signature] returns the token's signature
    when the public key accepts it and raises [SignatureInvalid]
    otherwise; without [verify_signature] it returns the signature
    unchecked. The token is not changed. *)
Theorem _sign_verify_signature X L data mech T d priv pub :
  filter (key_matches (KEY_TYPE_VALUES T) PRIVATE_KEY L) (objects d) = [priv] ->
  filter (key_matches (KEY_TYPE_VALUES T) PUBLIC_KEY L) (objects d) = [pub] ->
  _sign X L data true mech T d
  = (if token_verify X pub data (token_sign X priv mech data) mech
     then Ok (token_sign X priv mech data) else Err SignatureInvalid, d)
  /\ _sign X L data false mech T d = (Ok (token_sign X priv mech data), d).
Proof.
  intros Hq Hp. unfold _sign, bind, _get_pub_key.
  rewrite (get_key_unique _ _ _ _ priv Hq), (get_key_unique _ _ _ _ pub Hp).
  split; [|reflexivity]. cbn.
  destruct (token_verify X pub data (token_sign X priv mech data) mech); reflexivity.
Qed.

Lemma _sign_verify_signature_witness :
  let d := snd (create_keypair ext0 "ca" ED25519 empty_device) in
  _sign ext0 "ca" [1] true EDDSA ED25519 d = (Ok [1], d)
  /\ _sign ext0 "ca" [1] false EDDSA ED25519 d = (Ok [1], d).
Proof.
  exact (_sign_verify_signature ext0 "ca" [1] EDDSA ED25519
           (snd (create_keypair ext0 "ca" ED25519 empty_device))
           (mkObj 1 PRIVATE_KEY KT_EC_EDWARDS "ca" (EcNamedCurve "1.3.101.112") [] true)
           (mkObj 0 PUBLIC_KEY KT_EC_EDWARDS "ca" (EcNamedCurve "1.3.101.112") [0] true)
           eq_refl eq_refl).
Defined.

(** X13: with [verify_signature] a missing public key makes [_sign] raise
    [NoSuchKey] before anything is signed, although the private key is
    there and signing without [verify_signature] succeeds. *)
Theorem _sign_verify_needs_public X L data mech T d priv :
  filter (key_matches (KEY_TYPE_VALUES T) PRIVATE_KEY L) (objects d) = [priv] ->
  filter (key_matches (KEY_TYPE_VALUES T) PUBLIC_KEY L) (objects d) = [] ->
  _sign X L data true mech T d = (Err NoSuchKey, d)
  /\ _sign X L data false mech T d = (Ok (token_sign X priv mech data), d).
Proof.
  intros Hq Hp. unfold _sign, bind, _get_pub_key.
  rewrite (get_key_unique _ _ _ _ priv Hq), (get_key_none _ _ _ _ Hp). split; reflexivity.
Qed.

Lemma _sign_verify_needs_public_witness :
  let d := mkDevice [mkObj 0 PRIVATE_KEY KT_RSA "ca" (RsaModulusBits 2048) [] true] 1 in
  _sign ext0 "ca" [1] true SHA256_RSA_PKCS RSA2048 d = (Err NoSuchKey, d)
  /\ _sign ext0 "ca" [1] false SHA256_RSA_PKCS RSA2048 d = (Ok [1], d).
Proof.
  exact (_sign_verify_needs_public ext0 "ca" [1] SHA256_RSA_PKCS RSA2048
           (mkDevice [mkObj 0 PRIVATE_KEY KT_RSA "ca" (RsaModulusBits 2048) [] true] 1)
           (mkObj 0 PRIVATE_KEY KT_RSA "ca" (RsaModulusBits 2048) [] true) eq_refl eq_refl).
Defined.

(** ** The signature format round trip *)

Lemma strip_zeros_decomp b : exists k, b = repeat 0 k ++ strip_zeros b.
Proof.
  induction b as [|z t IH]; [exists 0%nat; reflexivity|].
  destruct t as [|y t']; [exists 0%nat; reflexivity|].
  simpl strip_zeros. destruct (Z.eqb_spec z 0) as [->|_]; [|exists 0%nat; reflexivity].
  destruct IH as [k Hk]. exists (S k). simpl. now f_equal.
Qed.

Lemma strip_zeros_nonnil b : b <> [] -> strip_zeros b <> [].
Proof.
  induction b as [|z t IH]; [tauto|]. intros _.
  destruct t as [|y t']; [discriminate|].
  simpl strip_zeros. destruct (Z.eqb z 0); [apply IH; discriminate|discriminate].
Qed.

Lemma strip_zeros_idem b : strip_zeros (strip_zeros b) = strip_zeros b.
Proof.
  induction b as [|z t IH]; [reflexivity|].
  destruct t as [|y t']; [reflexivity|].
  simpl strip_zeros at 2 3. destruct (Z.eqb_spec z 0) as [->|Hz]; [exact IH|].
  simpl. apply Z.eqb_neq in Hz. now rewrite Hz.
Qed.

Lemma strip_zeros_zero_cons s : s <> [] -> strip_zeros (0 :: s) = strip_zeros s.
Proof. destruct s; [tauto|reflexivity]. Qed.

Lemma parse_der_length_der n t : parse_der_length (der_length n ++ t) = Some (n, t).
Proof.
  unfold der_length.
  destruct (Nat.ltb_spec n 128).
  - simpl. replace (Z.of_nat n <? 128) with true by (symmetry; apply Z.ltb_lt; lia).
    now rewrite Nat2Z.id.
  - destruct (Nat.ltb_spec n 256); cbn -[Nat.div Nat.modulo Nat.mul Nat.add Z.to_nat Z.of_nat];
      [now rewrite Nat2Z.id|].
    rewrite !Nat2Z.id. f_equal. f_equal. pose proof (Nat.div_mod n 256 ltac:(lia)). lia.
Qed.

(** The content octets [der_integer] writes. *)
Definition der_content (b : bytes) : bytes :=
  let c0 := strip_zeros b in
  match c0 with
  | [] => [0]
  | h :: _ => if Z.leb 128 h then 0 :: c0 else c0
  end.

Lemma parse_der_integer_der b rest :
  parse_der_integer (der_integer b ++ rest) = Some (der_content b, rest).
Proof.
  change (der_integer b) with (2 :: der_length (List.length (der_content b)) ++ der_content b).
  simpl. rewrite <- app_assoc, parse_der_length_der.
  rewrite length_app. replace (List.length (der_content b) <=? _)%nat with true
    by (symmetry; apply Nat.leb_le; lia).
  rewrite firstn_app, skipn_app, Nat.sub_diag, firstn_all, skipn_all. simpl.
  now rewrite app_nil_r.
Qed.

Lemma fixed_width_content b :
  b <> [] -> fixed_width (List.length b) (der_content b) = Some b.
Proof.
  intros Hb. destruct (strip_zeros_decomp b) as [k Hk].
  pose proof (strip_zeros_nonnil b Hb) as Hs.
  assert (Hfin : forall s, s = strip_zeros b ->
            (if (List.length b <? List.length s)%nat then None
             else Some (repeat 0 (List.length b - List.length s) ++ s)) = Some b).
  { intros s Es. rewrite <- Es in Hk.
    assert (Hl : List.length b = (k + List.length s)%nat)
      by (rewrite Hk at 1; now rewrite length_app, repeat_length).
    rewrite Hl. replace (k + _ <? _)%nat with false by (symmetry; apply Nat.ltb_ge; lia).
    replace (k + _ - _)%nat with k by lia. now rewrite <- Hk. }
  assert (Hfw : forall w h c, fixed_width w (h :: c)
            = if Z.leb 128 h then None
              else if (w <? List.length (strip_zeros (h :: c)))%nat then None
              else Some (repeat 0 (w - List.length (strip_zeros (h :: c))) ++ strip_zeros (h :: c)))
    by reflexivity.
  unfold der_content. destruct (strip_zeros b) as [|h t] eqn:E; [contradiction|].
  destruct (Z.leb_spec 128 h).
  - rewrite Hfw. change (128 <=? 0) with false. cbv iota.
    rewrite strip_zeros_zero_cons by discriminate. rewrite <- E, strip_zeros_idem.
    now apply Hfin.
  - rewrite Hfw. replace (128 <=? h) with false by (symmetry; apply Z.leb_gt; lia).
    rewrite <- E, strip_zeros_idem. now apply Hfin.
Qed.

Lemma ec_component_width_pos curve : (0 < ec_component_width curve)%nat.
Proof. unfold ec_component_width. destruct (String.eqb _ _); [lia|destruct (String.eqb _ _); lia]. Qed.

Lemma convert_rs_asn1 signature curve :
  List.length signature = (2 * ec_component_width curve)%nat ->
  convert_asn1_ec_signature (convert_rs_ec_signature signature curve) curve = Some signature.
Proof.
  intros Hl. pose proof (ec_component_width_pos curve) as Hw.
  unfold convert_rs_ec_signature, convert_asn1_ec_signature, der_sequence.
  set (w := ec_component_width curve) in *.
  set (r := firstn w signature). set (s := firstn w (skipn w signature)).
  assert (Hr : List.length r = w) by (unfold r; rewrite length_firstn; lia).
  assert (Hs : List.length s = w) by (unfold s; rewrite length_firstn, length_skipn; lia).
  cbv beta iota zeta. rewrite Z.eqb_refl. cbv beta iota.
  rewrite parse_der_length_der. cbv beta iota. rewrite Nat.eqb_refl. cbv beta iota.
  rewrite parse_der_integer_der. cbv beta iota.
  rewrite <- (app_nil_r (der_integer s)), parse_der_integer_der. cbv beta iota.
  rewrite <- Hr at 1. rewrite fixed_width_content by (intros E; rewrite E in Hr; simpl in Hr; lia).
  rewrite <- Hs. rewrite fixed_width_content by (intros E; rewrite E in Hs; simpl in Hs; lia).
  f_equal. unfold r, s. rewrite (firstn_all2 (skipn w signature)) by (rewrite length_skipn; lia).
  apply firstn_skipn.
Qed.

(** X14: [convert_asn1_ec_signature] undoes [convert_rs_ec_signature]: a
    fixed-width [R || S] of the curve's size comes back unchanged from
    its DER encoding. *)
Theorem ec_signature_der_round_trip signature curve :
  List.length signature = (2 * ec_component_width curve)%nat ->
  convert_asn1_ec_signature (convert_rs_ec_signature signature curve) curve = Some signature.
Proof. apply convert_rs_asn1. Qed.

Lemma ec_signature_der_round_trip_witness :
  convert_asn1_ec_signature (convert_rs_ec_signature (repeat 0 31 ++ [200] ++ repeat 255 32) "secp256r1")
    "secp256r1" = Some (repeat 0 31 ++ [200] ++ repeat 255 32).
Proof. apply ec_signature_der_round_trip. reflexivity. Defined.

Lemma _sign_ok_inv X L data vs mech T d s d1 :
  _sign X L data vs mech T d = (Ok s, d1) ->
  d1 = d /\ exists priv, key_matches (KEY_TYPE_VALUES T) PRIVATE_KEY L priv = true
                         /\ s = token_sign X priv mech data.
Proof.
  unfold _sign, bind, get_key.
  destruct (filter (key_matches (KEY_TYPE_VALUES T) PRIVATE_KEY L) (objects d))
    as [|priv [|? ?]] eqn:E; try discriminate.
  assert (Hm : key_matches (KEY_TYPE_VALUES T) PRIVATE_KEY L priv = true).
  { assert (In priv (filter (key_matches (KEY_TYPE_VALUES T) PRIVATE_KEY L) (objects d)))
      as H by (rewrite E; now left).
    now apply filter_In in H as [_ H]. }
  destruct vs; cbn -[token_sign].
  - unfold _get_pub_key, get_key.
    destruct (filter (key_matches (KEY_TYPE_VALUES T) PUBLIC_KEY L) (objects d))
      as [|pub [|? ?]]; try discriminate.
    cbn -[token_sign]. destruct (token_verify X pub data (token_sign X priv mech data) mech);
      [|discriminate].
    intros H. inversion H; subst. split; [reflexivity|]. now exists priv.
  - intros H. inversion H; subst. split; [reflexivity|]. now exists priv.
Qed.

(** X15: [verify] accepts what [sign] produced: when the token's signature
    of a private key verifies under the public key of the same label and
    family, and the token's ECDSA output has the curve's fixed width,
    [verify] of [sign]'s result on the same data returns true, for every
    key type (the ECDSA signature goes through the DER round trip). *)
Theorem sign_then_verify X L data verify_signature T d pub signature d1 :
  (forall priv m h, key_matches (KEY_TYPE_VALUES T) PRIVATE_KEY L priv = true ->
     token_verify X pub h (token_sign X priv m h) m = true) ->
  (forall priv h, List.length (token_sign X priv ECDSA h)
                  = (2 * ec_component_width (keytype_value T))%nat) ->
  filter (key_matches (KEY_TYPE_VALUES T) PUBLIC_KEY L) (objects d) = [pub] ->
  sign X L data verify_signature T d = (Ok signature, d1) ->
  verify X L data signature T d1 = (Ok true, d1).
Proof.
  intros Hc Hlen Hp Hs.
  destruct T;
    cbv beta iota zeta delta [sign keytype_in existsb KEYTYPES_eqb orb bind ret] in Hs;
    destruct (_sign X L _ verify_signature _ _ d) as [[s|e] d'] eqn:E; try discriminate;
    apply _sign_ok_inv in E as [-> [priv [Hpm ->]]];
    inversion Hs; subst; clear Hs;
    cbv beta iota zeta delta [verify keytype_in existsb KEYTYPES_eqb orb bind ret _get_pub_key];
    rewrite (get_key_unique _ _ _ _ pub Hp); cbv beta iota;
    try rewrite convert_rs_asn1 by apply Hlen;
    rewrite Hc by exact Hpm; reflexivity.
Qed.

Lemma sign_then_verify_witness :
  let d := snd (create_keypair ext_ec "ca" SECP256r1 empty_device) in
  let sig := convert_rs_ec_signature (firstn 64 ([1; 2; 3] ++ repeat 0 64)) "secp256r1" in
  sign ext_ec "ca" [1; 2; 3] true SECP256r1 d = (Ok sig, d)
  /\ verify ext_ec "ca" [1; 2; 3] sig SECP256r1 d = (Ok true, d).
Proof.
  split; [reflexivity|].
  apply (sign_then_verify ext_ec "ca" [1; 2; 3] true SECP256r1
           (snd (create_keypair ext_ec "ca" SECP256r1 empty_device))
           (mkObj 0 PUBLIC_KEY KT_EC "ca" (EcNamedCurve "1.2.840.10045.3.1.7") [0] true)).
  - reflexivity.
  - intros priv h. change (List.length (firstn 64 (h ++ repeat 0 64)) = 64%nat).
    rewrite length_firstn, length_app, repeat_length. lia.
  - reflexivity.
  - reflexivity.
Defined.

(** ** The older session wrapper *)

(** X16: in the older wrapper, [create_keypair] under a label without an
    RSA public key returns a key identifier that [key_identifier] of the
    label then returns as well; it is the [sha1] of the returned
    [PublicKeyInfo] and equals the identifier the current
    [_public_key_data] computes for that public key. *)
Theorem legacy_create_then_key_identifier X key_size L d :
  filter (key_matches KT_RSA PUBLIC_KEY L) (objects d) = [] ->
  exists pki kid d1 pub,
    Legacy.create_keypair X key_size L d = (Ok (pki, kid), d1)
    /\ Legacy.key_identifier X L d1 = (Ok kid, d1)
    /\ kid = pki_sha1 X pki
    /\ In pub (objects d1) /\ kid = snd (_public_key_data X pub RSA2048).
Proof.
  intros E. set (n := next_handle d).
  set (p := RsaModulusBits key_size).
  set (pub := mkObj n PUBLIC_KEY KT_RSA L p (keygen X p n) true).
  set (priv := mkObj (S n) PRIVATE_KEY KT_RSA L p [] true).
  exists (mkPKI "rsa" (encode_rsa_public_key X pub)), (sha1 X (encode_rsa_public_key X pub)),
    (mkDevice (objects d ++ [pub; priv]) (S (S n))), pub.
  split; [reflexivity|]. split; [|split; [reflexivity|split; [|reflexivity]]].
  - unfold Legacy.key_identifier, bind. rewrite (get_key_unique _ _ _ _ pub); [reflexivity|].
    cbn [objects]. rewrite filter_app, E. cbn [filter app]. unfold pub at 1. rewrite key_matches_self.
    unfold priv. rewrite key_matches_class by reflexivity. reflexivity.
  - simpl. apply in_or_app. right. now left.
Qed.

Lemma legacy_create_then_key_identifier_witness :
  exists pki kid d1 pub,
    Legacy.create_keypair ext0 2048 "ca" empty_device = (Ok (pki, kid), d1)
    /\ Legacy.key_identifier ext0 "ca" d1 = (Ok kid, d1)
    /\ kid = pki_sha1 ext0 pki
    /\ In pub (objects d1) /\ kid = snd (_public_key_data ext0 pub RSA2048).
Proof. apply legacy_create_then_key_identifier. reflexivity. Defined.

(** X17: the older [create_keypair] does not check the label: called twice
    with the same label it succeeds both times, after which
    [key_identifier] and [sign] of that label raise
    [MultipleObjectsReturned]. *)
Theorem legacy_create_keypair_twice X s1 s2 L d data :
  let d1 := snd (Legacy.create_keypair X s1 L d) in
  let d2 := snd (Legacy.create_keypair X s2 L d1) in
  (exists r1, fst (Legacy.create_keypair X s1 L d) = Ok r1)
  /\ (exists r2, fst (Legacy.create_keypair X s2 L d1) = Ok r2)
  /\ fst (Legacy.key_identifier X L d2) = Err MultipleObjectsReturned
  /\ fst (Legacy.sign X data L d2) = Err MultipleObjectsReturned.
Proof.
  cbv zeta. split; [eexists; reflexivity|]. split; [eexists; reflexivity|].
  set (n := next_handle d).
  set (p1 := RsaModulusBits s1). set (p2 := RsaModulusBits s2).
  set (pub1 := mkObj n PUBLIC_KEY KT_RSA L p1 (keygen X p1 n) true).
  set (priv1 := mkObj (S n) PRIVATE_KEY KT_RSA L p1 [] true).
  set (pub2 := mkObj (S (S n)) PUBLIC_KEY KT_RSA L p2 (keygen X p2 (S (S n))) true).
  set (priv2 := mkObj (S (S (S n))) PRIVATE_KEY KT_RSA L p2 [] true).
  assert (Hd2 : snd (Legacy.create_keypair X s2 L (snd (Legacy.create_keypair X s1 L d)))
                = mkDevice ((objects d ++ [pub1; priv1]) ++ [pub2; priv2]) (S (S (S (S n)))))
    by reflexivity.
  rewrite Hd2.
  assert (Hpub : filter (key_matches KT_RSA PUBLIC_KEY L) ((objects d ++ [pub1; priv1]) ++ [pub2; priv2])
                 = filter (key_matches KT_RSA PUBLIC_KEY L) (objects d) ++ [pub1; pub2]).
  { rewrite !filter_app. cbn [filter app]. unfold pub1, pub2. rewrite !key_matches_self.
    unfold priv1, priv2. rewrite !key_matches_class by reflexivity. now rewrite <- app_assoc. }
  destruct (filter (key_matches KT_RSA PUBLIC_KEY L) (objects d)) as [|o l] eqn:E.
  - split.
    + unfold Legacy.key_identifier, bind. now rewrite (get_key_many _ _ _ _ pub1 pub2 []).
    + unfold Legacy.sign, bind. now rewrite (get_key_many _ _ _ _ pub1 pub2 []).
  - split.
    + unfold Legacy.key_identifier, bind.
      now rewrite (get_key_many _ _ _ _ o (hd pub1 (l ++ [pub1; pub2])) (tl (l ++ [pub1; pub2])))
        by (cbn [objects]; rewrite Hpub; destruct l; reflexivity).
    + unfold Legacy.sign, bind.
      now rewrite (get_key_many _ _ _ _ o (hd pub1 (l ++ [pub1; pub2])) (tl (l ++ [pub1; pub2])))
        by (cbn [objects]; rewrite Hpub; destruct l; reflexivity).
Qed.

(** X18: the older [sign] needs the public key although it signs with the
    private one: without a public key under the label it raises
    [NoSuchKey]; with one it returns the token's SHA256-RSA-PKCS
    signature of the data. *)
Theorem legacy_sign_requires_public X data L d priv :
  filter (key_matches KT_RSA PRIVATE_KEY L) (objects d) = [priv] ->
  (filter (key_matches KT_RSA PUBLIC_KEY L) (objects d) = [] ->
   Legacy.sign X data L d = (Err NoSuchKey, d))
  /\ (forall pub, filter (key_matches KT_RSA PUBLIC_KEY L) (objects d) = [pub] ->
      Legacy.sign X data L d = (Ok (token_sign X priv SHA256_RSA_PKCS data), d)).
Proof.
  intros Hq. split.
  - intros Hp. unfold Legacy.sign, bind. now rewrite (get_key_none _ _ _ _ Hp).
  - intros pub Hp. unfold Legacy.sign, bind.
    now rewrite (get_key_unique _ _ _ _ pub Hp), (get_key_unique _ _ _ _ priv Hq).
Qed.

Lemma legacy_sign_requires_public_witness :
  Legacy.sign ext0 [5] "ca" (mkDevice [mkObj 0 PRIVATE_KEY KT_RSA "ca" (RsaModulusBits 2048) [] true] 1)
  = (Err NoSuchKey, mkDevice [mkObj 0 PRIVATE_KEY KT_RSA "ca" (RsaModulusBits 2048) [] true] 1).
Proof.
  apply (legacy_sign_requires_public ext0 [5] "ca"
           (mkDevice [mkObj 0 PRIVATE_KEY KT_RSA "ca" (RsaModulusBits 2048) [] true] 1)
           (mkObj 0 PRIVATE_KEY KT_RSA "ca" (RsaModulusBits 2048) [] true)); reflexivity.
Defined.

(** ** The health probe under [simulate_pkcs11_timeout] *)

(** X19: with session recreation enabled and [simulate_pkcs11_timeout] set,
    [healthy_session] always fails, whatever the status it finds and the
    writes still pending: both probe threads outlive the budget, the
    second one forced, and the caller raises
    [PKCS11UnknownErrorException] after waiting twice [TIMEOUT]. *)
Theorem healthy_session_simulated_timeout z0 pending a1 a2 :
  healthy_session true true z0 pending a1 a2
  = mkHealthRun (Err PKCS11UnknownErrorException) [false; true] (2 * TIMEOUT).
Proof.
  destruct a1 as [d1 o1], a2 as [d2 o2]. reflexivity.
Qed.

(** ** The CSR attribute setters *)

(** X20: [_set_tbs_basic_constraints] then [_set_tbs_key_usage] on any
    [CertificationRequestInfo] keep its version, subject and key info and
    append, in that order, one extensionRequest attribute each (the
    basicConstraints one, then the keyUsage one) to the attributes it
    already has, empty or not. *)
Theorem extension_setters_append tbs :
  let tbs' := _set_tbs_key_usage (_set_tbs_basic_constraints tbs) in
  cri_version tbs' = cri_version tbs /\ cri_subject tbs' = cri_subject tbs
  /\ cri_subject_pk_info tbs' = cri_subject_pk_info tbs
  /\ exists bc ku,
       cri_attributes tbs' = cri_attributes tbs ++ [bc; ku]
       /\ attr_type bc = extension_request_oid /\ attr_type ku = extension_request_oid
       /\ attr_values bc = [[mkX509Extension "2.5.29.19" true (BasicConstraints true)]]
       /\ attr_values ku = [[mkX509Extension "2.5.29.15" true (KeyUsage (bits_of_string "100001100"))]].
Proof.
  cbv zeta. unfold _set_tbs_key_usage, _set_tbs_basic_constraints, add_attribute.
  destruct tbs as [v s pk attrs]; simpl.
  repeat split; try reflexivity.
  exists (mkCRIAttribute extension_request_oid
            [[mkX509Extension "2.5.29.19" true (BasicConstraints true)]]),
         (mkCRIAttribute extension_request_oid
            [[mkX509Extension "2.5.29.15" true (KeyUsage (bits_of_string "100001100"))]]).
  split; [|repeat split; reflexivity].
  destruct attrs as [|a attrs]; simpl; [reflexivity|].
  now rewrite <- app_assoc.
Qed.
